(** * Smart City dashboard (app.py): the fetch-and-derive pipeline

    A shallow embedding of [get_pollution_data], [get_traffic_data],
    [get_historical_aqi] and of the page script that calls them, over a
    small model of the Python values that [requests.get(...).json()]
    hands back, of Python's exceptions, and of the Streamlit output. *)

From Stdlib Require Import ZArith List String Bool Lia.
From Stdlib Require Import Floats.PrimFloat Floats.SpecFloat Floats.FloatOps.
Import ListNotations.
Set Warnings "-register-all,-inexact-float,-notation-for-abbreviation".
Open Scope string_scope.
Open Scope list_scope.
Open Scope Z_scope.

(** ** Python values

    What [json()] can return: [None], [bool], [int], [float], [str],
    [list] and [dict] with string keys.  A dict is kept as an association
    list in insertion order; lookup takes the first binding of a key. *)

Inductive pyval : Type :=
| VNone
| VBool (b : bool)
| VInt (z : Z)
| VFloat (f : float)
| VStr (s : string)
| VList (l : list pyval)
| VDict (d : list (string * pyval)).

(** The exceptions the program can meet; every one of them is a subclass
    of Python's [Exception].  [RequestException] stands for the
    transport-level family of [requests.exceptions] (connection errors,
    timeouts, ...); [JSONDecodeError] is what [.json()] raises on a body
    that is not JSON. *)

Inductive exn : Type :=
| KeyError (key : pyval)
| IndexError
| TypeError
| AttributeError
| ValueError
| ZeroDivisionError
| OverflowError
| JSONDecodeError
| RequestException (detail : string).

Inductive result (A : Type) : Type :=
| Ok (a : A)
| Raise (e : exn).

Arguments Ok {A} a.
Arguments Raise {A} e.

Module Py.

Fixpoint dict_get (key : string) (d : list (string * pyval)) : option pyval :=
  match d with
  | [] => None
  | (k, v) :: d' => if String.eqb k key then Some v else dict_get key d'
  end.

(** [needle in hay] for two strings. *)
Fixpoint is_substring (needle hay : string) : bool :=
  String.prefix needle hay ||
  match hay with
  | EmptyString => false
  | String _ hay' => is_substring needle hay'
  end.

Definition is_str (key : string) (v : pyval) : bool :=
  match v with
  | VStr s => String.eqb s key
  | _ => false
  end.

(** ['key' in v] *)
Definition contains (key : string) (v : pyval) : result bool :=
  match v with
  | VDict d => Ok (match dict_get key d with Some _ => true | None => false end)
  | VList l => Ok (existsb (is_str key) l)
  | VStr s => Ok (is_substring key s)
  | _ => Raise TypeError
  end.

(** [v['key']] *)
Definition getitem (v : pyval) (key : string) : result pyval :=
  match v with
  | VDict d =>
      match dict_get key d with
      | Some x => Ok x
      | None => Raise (KeyError (VStr key))
      end
  | _ => Raise TypeError
  end.

(** [v[0]] *)
Definition getitem0 (v : pyval) : result pyval :=
  match v with
  | VList (x :: _) => Ok x
  | VList [] => Raise IndexError
  | VStr (String c _) => Ok (VStr (String c EmptyString))
  | VStr EmptyString => Raise IndexError
  | VDict _ => Raise (KeyError (VInt 0))
  | _ => Raise TypeError
  end.

(** [v.get('key', default)]: only a dict has the method. *)
Definition dict_get_default (v : pyval) (key : string) (default : pyval)
  : result pyval :=
  match v with
  | VDict d =>
      Ok (match dict_get key d with Some x => x | None => default end)
  | _ => Raise AttributeError
  end.

(** [list(v.keys())] and [list(v.values())] *)
Definition keys (v : pyval) : result (list pyval) :=
  match v with
  | VDict d => Ok (map (fun kv => VStr (fst kv)) d)
  | _ => Raise AttributeError
  end.

Definition values (v : pyval) : result (list pyval) :=
  match v with
  | VDict d => Ok (map snd d)
  | _ => Raise AttributeError
  end.

(** Truth value of [v] in an [if] or an [and]. *)
Definition truthy (v : pyval) : bool :=
  match v with
  | VNone => false
  | VBool b => b
  | VInt z => negb (z =? 0)
  | VFloat f => negb (PrimFloat.eqb f 0%float)
  | VStr s => negb (String.eqb s "")
  | VList l => match l with [] => false | _ => true end
  | VDict d => match d with [] => false | _ => true end
  end.

Definition is_none (v : pyval) : bool :=
  match v with
  | VNone => true
  | _ => false
  end.

(** [v == 'lit'] *)
Definition eq_str (v : pyval) (lit : string) : bool := is_str lit v.

Fixpoint chars (s : string) : list pyval :=
  match s with
  | EmptyString => []
  | String c s' => VStr (String c EmptyString) :: chars s'
  end.

(** The items a [for] loop over [v] visits. *)
Definition iter (v : pyval) : result (list pyval) :=
  match v with
  | VList l => Ok l
  | VDict d => Ok (map (fun kv => VStr (fst kv)) d)
  | VStr s => Ok (chars s)
  | _ => Raise TypeError
  end.

(** *** Numbers

    [int] is unbounded, [float] is IEEE binary64; [bool] counts as the
    int 0 or 1 in arithmetic. *)

Inductive number : Type :=
| NInt (z : Z)
| NFloat (f : float).

Definition as_number (v : pyval) : option number :=
  match v with
  | VBool b => Some (NInt (if b then 1 else 0))
  | VInt z => Some (NInt z)
  | VFloat f => Some (NFloat f)
  | _ => None
  end.

(** [float(z)]: the nearest binary64 (ties to even), [OverflowError]
    past the largest finite one. *)
Definition float_of_int (z : Z) : result float :=
  match binary_normalize prec emax z 0 false with
  | S754_infinity _ => Raise OverflowError
  | sf => Ok (SF2Prim sf)
  end.

Definition to_float (n : number) : result float :=
  match n with
  | NInt z => float_of_int z
  | NFloat f => Ok f
  end.

(** [a / b] on two ints: the correctly rounded quotient.  The quotient
    is taken with at least 65 significant bits and a sticky bit for the
    remainder, then rounded once. *)
Definition int_true_div (a b : Z) : result float :=
  if b =? 0 then Raise ZeroDivisionError
  else
    let neg := xorb (a <? 0) (b <? 0) in
    let n := Z.abs a in
    let d := Z.abs b in
    if n =? 0 then Ok (if neg then (-0)%float else 0%float)
    else
      let k := Z.max 0 (66 + Z.log2 d - Z.log2 n) in
      let q := Z.shiftl n k / d in
      let sticky := if Z.shiftl n k mod d =? 0 then 0 else 1 in
      let m := 2 * q + sticky in
      match binary_normalize prec emax (if neg then - m else m) (- (k + 1)) neg with
      | S754_infinity _ => Raise OverflowError
      | sf => Ok (SF2Prim sf)
      end.

Definition float_div (x y : float) : result float :=
  if PrimFloat.eqb y 0%float then Raise ZeroDivisionError
  else Ok (x / y)%float.

(** [a / b] *)
Definition truediv (a b : pyval) : result float :=
  match as_number a, as_number b with
  | Some (NInt x), Some (NInt y) => int_true_div x y
  | Some x, Some y =>
      match to_float x with
      | Raise e => Raise e
      | Ok fx =>
          match to_float y with
          | Raise e => Raise e
          | Ok fy => float_div fx fy
          end
      end
  | _, _ => Raise TypeError
  end.

(** A binary operator that is exact on ints and IEEE on floats. *)
Definition arith (zop : Z -> Z -> Z) (fop : float -> float -> float)
  (x y : number) : result pyval :=
  match x, y with
  | NInt a, NInt b => Ok (VInt (zop a b))
  | _, _ =>
      match to_float x with
      | Raise e => Raise e
      | Ok fx =>
          match to_float y with
          | Raise e => Raise e
          | Ok fy => Ok (VFloat (fop fx fy))
          end
      end
  end.

(** [a - b] *)
Definition sub (a b : pyval) : result pyval :=
  match as_number a, as_number b with
  | Some x, Some y => arith Z.sub PrimFloat.sub x y
  | _, _ => Raise TypeError
  end.

(** [a + b]: numbers add, two strings or two lists concatenate. *)
Definition add (a b : pyval) : result pyval :=
  match a, b with
  | VStr s, VStr t => Ok (VStr (s ++ t))
  | VList l, VList m => Ok (VList (l ++ m))
  | _, _ =>
      match as_number a, as_number b with
      | Some x, Some y => arith Z.add PrimFloat.add x y
      | _, _ => Raise TypeError
      end
  end.

(** [x * n] for a float [x] and an int literal [n]; both products of
    app.py have a float on the left. *)
Definition float_mul_int (x : float) (n : Z) : result float :=
  match float_of_int n with
  | Raise e => Raise e
  | Ok fn => Ok (x * fn)%float
  end.

(** [v > n] for an int literal [n] that binary64 holds exactly (100 at
    both places of app.py), so that comparing a float with [float(n)]
    is Python's exact comparison. *)
Definition gt_int (v : pyval) (n : Z) : result bool :=
  match as_number v with
  | Some (NInt z) => Ok (n <? z)
  | Some (NFloat f) =>
      match float_of_int n with
      | Raise e => Raise e
      | Ok fn => Ok (PrimFloat.ltb fn f)
      end
  | None => Raise TypeError
  end.

End Py.

(** ** Formatted strings, requests and the page

    An f-string is kept as its pieces: literal text and the values that
    [str()] renders into it.  A URL or a message is such a string. *)

Inductive piece : Type :=
| Lit (s : string)
| Fmt (v : pyval)
| Fmt2f (x : Py.number)
| FmtExn (e : exn).

Definition fstring : Type := list piece.

(** [requests.get(url, params=params)]; [params] is empty when the call
    passes none. *)
Record request : Type := mkRequest {
  url : fstring;
  params : list (string * fstring)
}.

(** What Streamlit has been asked to show. *)
Inductive ui_event : Type :=
| StError (msg : fstring)
| StWrite (msg : fstring)
| StMarkdown (body : fstring)
| SidebarMetric (label : string) (value : fstring)
| Chart (kind : string) (xs ys : list pyval)
| MapMarker (lat lon : pyval) (popup : fstring) (color : string).

Record state : Type := mkState {
  page : list ui_event;
  sent : list request
}.

(** ** State and exceptions

    A computation reads and extends the state and either returns or
    raises; what was shown before a raise stays shown. *)

Definition M (A : Type) : Type := state -> result A * state.

Definition ret {A} (a : A) : M A := fun s => (Ok a, s).

Definition raise {A} (e : exn) : M A := fun s => (Raise e, s).

Definition bind {A B} (m : M A) (k : A -> M B) : M B :=
  fun s =>
    match m s with
    | (Ok a, s') => k a s'
    | (Raise e, s') => (Raise e, s')
    end.

Definition lift {A} (r : result A) : M A := fun s => (r, s).

(** [try: body except Exception as e: handler e] *)
Definition try_except {A} (body : M A) (handler : exn -> M A) : M A :=
  fun s =>
    match body s with
    | (Ok a, s') => (Ok a, s')
    | (Raise e, s') => handler e s'
    end.

Definition show (ev : ui_event) : M unit :=
  fun s => (Ok tt, mkState (page s ++ [ev]) (sent s)).

Definition st_error (msg : fstring) : M unit := show (StError msg).

Declare Scope py_scope.
Delimit Scope py_scope with py.
Notation "x <- m ;; k" := (bind m (fun x => k))
  (at level 100, m at next level, right associativity) : py_scope.
Notation "' p <- m ;; k" := (bind m (fun x => let 'p := x in k))
  (at level 100, p pattern, m at next level, right associativity) : py_scope.
Notation "m ;; k" := (bind m (fun _ => k))
  (at level 100, right associativity) : py_scope.
Open Scope py_scope.

(** ** DataFrames

    [pd.DataFrame(aqi_data)] is the list of its rows, in order;
    [pd.DataFrame()] has none.  A cell holds the value its record gave
    it: pandas may store a column under a common dtype, which changes how
    a cell is represented, not which rows there are nor their order. *)

Record row : Type := mkRow {
  timestamp : pyval;
  aqi : pyval
}.

Definition dataframe : Type := list row.

(** [l[start:]] on a sequence: a negative start counts from the end and
    is clamped to the sequence. *)
Definition slice_from {A} (start : Z) (l : list A) : list A :=
  let n := Z.of_nat (List.length l) in
  let lo := if start <? 0 then Z.max (start + n) 0 else Z.min start n in
  skipn (Z.to_nat lo) l.

(** [df.iloc[-7:]] *)
Definition last_7_days (df : dataframe) : dataframe := slice_from (-7) df.

(** ** The three fetch-and-derive functions

    The API keys are read once when the module loads; each is a string
    or [None].  [upstream] is what [requests.get(...).json()] yields for a
    request: the decoded body, or the exception the call raises.
    [pd_to_datetime] is pandas' conversion of a column. *)

Definition and_then {A B} (r : result A) (k : A -> result B) : result B :=
  match r with
  | Ok a => k a
  | Raise e => Raise e
  end.

(** [{v:.2f}] *)
Definition format_2f (v : pyval) : result piece :=
  match Py.as_number v with
  | Some n => and_then (Py.to_float n) (fun _ => Ok (Fmt2f n))
  | None =>
      match v with
      | VStr _ => Raise ValueError
      | _ => Raise TypeError
      end
  end.

(** Line 73: [(distance / 1000) / 50 * 3600] *)
Definition expected_duration (distance : pyval) : result float :=
  and_then (Py.truediv distance (VInt 1000)) (fun km =>
  and_then (Py.truediv (VFloat km) (VInt 50)) (fun hours =>
  Py.float_mul_int hours 3600)).

(** Line 75: [(duration - expected_duration) / expected_duration * 100] *)
Definition congestion_percentage (duration : pyval) (expected : float)
  : result float :=
  and_then (Py.sub duration (VFloat expected)) (fun excess =>
  and_then (Py.truediv excess (VFloat expected)) (fun ratio =>
  Py.float_mul_int ratio 100)).

(** Lines 100-104: the loop that appends one row per entry. *)
Fixpoint append_samples (entries : list pyval) (aqi_data : list row)
  : result (list row) :=
  match entries with
  | [] => Ok aqi_data
  | entry :: rest =>
      and_then (Py.getitem entry "day") (fun day =>
      and_then (Py.getitem entry "avg") (fun avg =>
      append_samples rest (aqi_data ++ [mkRow day avg])))
  end.

(** [df['timestamp'] = column] *)
Definition set_timestamps (column : list pyval) (df : dataframe) : dataframe :=
  map (fun tr => mkRow (fst tr) (aqi (snd tr))) (combine column df).

Definition df_empty (df : dataframe) : bool :=
  match df with
  | [] => true
  | _ => false
  end.

(** [st.metric] checks the value it is given: [None] (shown as a dash),
    a number or a string is accepted, anything else is a [TypeError]. *)
Definition metric_value (value : pyval) : result fstring :=
  match value with
  | VNone => Ok [Lit "—"]
  | VList _ | VDict _ => Raise TypeError
  | _ => Ok [Fmt value]
  end.

(** [folium.Map] and [folium.Marker] validate [location=[lat, lon]]:
    each coordinate must convert to a float ([ValueError] if [float()]
    refuses it) that is not NaN ([ValueError]); an int too large for a
    float is an [OverflowError].  A string that [float()] parses would
    pass; no run of the script gets here with a coordinate that is not a
    number, since the offset of line 53, evaluated at line 222, raises on
    it first. *)
Definition location_coordinate (v : pyval) : result unit :=
  match Py.as_number v with
  | Some n =>
      and_then (Py.to_float n) (fun f =>
      if PrimFloat.eqb f f then Ok tt else Raise ValueError)
  | None => Raise ValueError
  end.

Definition validate_location (lat lon : pyval) : result unit :=
  and_then (location_coordinate lat) (fun _ => location_coordinate lon).

Section App.

Variables OPENWEATHERMAP_API_KEY OPENROUTESERVICE_API_KEY WAQI_API_TOKEN
  : pyval.
Variable upstream : request -> result pyval.
Variable pd_to_datetime : list pyval -> result (list pyval).

Definition requests_get_json (r : request) : M pyval :=
  fun s => (upstream r, mkState (page s) (sent s ++ [r])).

(** The four requests, as the f-strings and the parameters build them. *)

Definition weather_request (city : string) : request :=
  let api_key := OPENWEATHERMAP_API_KEY in
  mkRequest
    [Lit "http://api.openweathermap.org/data/2.5/weather?q="; Fmt (VStr city);
     Lit "&appid="; Fmt api_key]
    [].

Definition air_pollution_request (lat lon : pyval) : request :=
  let api_key := OPENWEATHERMAP_API_KEY in
  mkRequest
    [Lit "http://api.openweathermap.org/data/2.5/air_pollution?lat="; Fmt lat;
     Lit "&lon="; Fmt lon; Lit "&appid="; Fmt api_key]
    [].

Definition directions_request (origin destination : fstring) : request :=
  let ors_api_key := OPENROUTESERVICE_API_KEY in
  mkRequest
    [Lit "https://api.openrouteservice.org/v2/directions/driving-car"]
    [("api_key", [Fmt ors_api_key]); ("start", origin); ("end", destination)].

Definition feed_request (city : string) : request :=
  let token := WAQI_API_TOKEN in
  mkRequest
    [Lit "https://api.waqi.info/feed/"; Fmt (VStr city); Lit "/?token=";
     Fmt token]
    [].

(** ['key' in v and v['key']], as a condition. *)
Definition present_and_truthy (v : pyval) (key : string) : M bool :=
  has <- lift (Py.contains key v) ;;
  if has then
    x <- lift (Py.getitem v key) ;;
    ret (Py.truthy x)
  else ret false.

Definition get_pollution_data (city : string) : M (pyval * pyval * pyval) :=
  city_response <- requests_get_json (weather_request city) ;;
  has_coord <- lift (Py.contains "coord" city_response) ;;
  if has_coord then
    coord <- lift (Py.getitem city_response "coord") ;;
    lat <- lift (Py.getitem coord "lat") ;;
    coord <- lift (Py.getitem city_response "coord") ;;
    lon <- lift (Py.getitem coord "lon") ;;
    pollution_response <- requests_get_json (air_pollution_request lat lon) ;;
    has_list <- present_and_truthy pollution_response "list" ;;
    if has_list then
      entries <- lift (Py.getitem pollution_response "list") ;;
      first <- lift (Py.getitem0 entries) ;;
      components <- lift (Py.getitem first "components") ;;
      ret (components, lat, lon)
    else
      st_error [Lit "Pollution data not available for the selected city."] ;;
      ret (VNone, VNone, VNone)
  else
    st_error [Lit "City not found or invalid API key."] ;;
    ret (VNone, VNone, VNone).

Definition get_traffic_data (lat lon : pyval) : M pyval :=
  let origin := [Fmt lon; Lit ","; Fmt lat] in
  lon_end <- lift (Py.add lon (VFloat 0.01)) ;;
  lat_end <- lift (Py.add lat (VFloat 0.01)) ;;
  let destination := [Fmt lon_end; Lit ","; Fmt lat_end] in
  try_except
    (response <- requests_get_json (directions_request origin destination) ;;
     has_route <- present_and_truthy response "features" ;;
     if has_route then
       features <- lift (Py.getitem response "features") ;;
       first <- lift (Py.getitem0 features) ;;
       properties <- lift (Py.getitem first "properties") ;;
       summary <- lift (Py.getitem properties "summary") ;;
       duration <- lift (Py.getitem summary "duration") ;;
       distance <- lift (Py.getitem summary "distance") ;;
       expected <- lift (expected_duration distance) ;;
       congestion <- lift (congestion_percentage duration expected) ;;
       ret (VDict [("duration", duration);
                   ("distance", distance);
                   ("expected_duration", VFloat expected);
                   ("congestion", VFloat congestion)])
     else
       st_error [Lit "No route found in the API response."] ;;
       ret VNone)
    (fun e =>
       st_error [Lit "Failed to retrieve traffic data: "; FmtExn e] ;;
       ret VNone).

Definition get_historical_aqi (city : string) : M (pyval * dataframe) :=
  response <- requests_get_json (feed_request city) ;;
  status <- lift (Py.getitem response "status") ;;
  if Py.eq_str status "ok" then
    data <- lift (Py.getitem response "data") ;;
    current_aqi <- lift (Py.getitem data "aqi") ;;
    data <- lift (Py.getitem response "data") ;;
    forecast <- lift (Py.getitem data "forecast") ;;
    daily <- lift (Py.getitem forecast "daily") ;;
    historical_data <- lift (Py.getitem daily "pm25") ;;
    entries <- lift (Py.iter historical_data) ;;
    aqi_data <- lift (append_samples entries []) ;;
    ret (current_aqi, aqi_data)
  else
    st_error [Lit "Failed to fetch historical AQI data."] ;;
    ret (VNone, [])%list.

(** *** The page script, from line 161 on

    The static page set-up above it shows fixed text only.  The widget
    calls are the presentation boundary: each is recorded on the page
    and returns, after the check of its arguments that [st.metric] and
    folium make. *)

Definition to_datetime_column (df : dataframe) : M dataframe :=
  column <- lift (pd_to_datetime (map timestamp df)) ;;
  ret (set_timestamps column df).

Definition sidebar_statistics (current_aqi components : pyval) : M unit :=
  show (StMarkdown [Lit "### Key Statistics"]) ;;
  (if negb (Py.is_none current_aqi)
   then
     value <- lift (metric_value current_aqi) ;;
     show (SidebarMetric "Current AQI" value)
   else ret tt) ;;
  if Py.truthy components then
    pm25 <- lift (Py.dict_get_default components "pm2_5" (VStr "N/A")) ;;
    show (SidebarMetric "PM2.5 Level" [Fmt pm25; Lit " μg/m³"])
  else ret tt.

Definition sidebar_trend (historical_aqi_df : dataframe) : M dataframe :=
  if negb (df_empty historical_aqi_df) then
    show (StMarkdown [Lit "### AQI Trend (Last 7 Days)"]) ;;
    df <- to_datetime_column historical_aqi_df ;;
    let last := last_7_days df in
    show (Chart "sidebar" (map timestamp last) (map aqi last)) ;;
    ret df
  else ret historical_aqi_df.

Definition traffic_card (lat lon : pyval) : M unit :=
  show (StMarkdown [Lit "### Traffic Information"]) ;;
  traffic_info <- get_traffic_data lat lon ;;
  if Py.truthy traffic_info then
    duration <- lift (Py.getitem traffic_info "duration") ;;
    duration <- lift (format_2f duration) ;;
    expected <- lift (Py.getitem traffic_info "expected_duration") ;;
    expected <- lift (format_2f expected) ;;
    congestion <- lift (Py.getitem traffic_info "congestion") ;;
    congestion <- lift (format_2f congestion) ;;
    show (StMarkdown [Lit "Traffic Duration"; duration; Lit " s";
                      Lit "Expected Duration (no traffic)"; expected; Lit " s";
                      Lit "Estimated Congestion"; congestion; Lit "%"])
  else show (StWrite [Lit "Traffic data not available."]).

Definition main_content (city : string) (current_aqi components lat lon : pyval)
  (historical_aqi_df : dataframe) : M unit :=
  show (StMarkdown [Lit "### Air Quality Index (AQI)"]) ;;
  red <- lift (Py.gt_int current_aqi 100) ;;
  let aqi_color := if red then "red" else "green" in
  show (StMarkdown [Lit "Current AQI"; Lit aqi_color; Fmt current_aqi]) ;;
  traffic_card lat lon ;;
  show (StMarkdown [Lit "### City Map"]) ;;
  lift (validate_location lat lon) ;;
  red <- lift (Py.gt_int current_aqi 100) ;;
  lift (validate_location lat lon) ;;
  show (MapMarker lat lon [Lit "AQI: "; Fmt current_aqi]
          (if red then "red" else "green")) ;;
  show (StMarkdown [Lit "### Pollutants Concentration"]) ;;
  (if Py.truthy components then
     xs <- lift (Py.keys components) ;;
     ys <- lift (Py.values components) ;;
     show (Chart "bar" xs ys)
   else ret tt) ;;
  show (StMarkdown [Lit "### Historical AQI Trend"]) ;;
  if negb (df_empty historical_aqi_df) then
    df <- to_datetime_column historical_aqi_df ;;
    show (Chart "line" (map timestamp df) (map aqi df))
  else show (StWrite [Lit "Historical AQI data not available."]).

Definition render (city : string) : M unit :=
  ' (current_aqi, historical_aqi_df) <- get_historical_aqi city ;;
  ' (components, lat, lon) <- get_pollution_data city ;;
  sidebar_statistics current_aqi components ;;
  historical_aqi_df <- sidebar_trend historical_aqi_df ;;
  show (StMarkdown [Lit "### AQI Levels"]) ;;
  show (StMarkdown [Lit "Smart City Traffic and Pollution Monitoring"]) ;;
  if negb (Py.is_none lat) && negb (Py.is_none lon) then
    main_content city current_aqi components lat lon historical_aqi_df
  else
    st_error [Lit "Unable to fetch data for the selected city. Please try again later."].

End App.

(** ** Loading the API keys (lines 15-21)

    [os_getenv] is the process environment ([None] for an unset
    variable); [secrets_api_keys] is the outcome of
    [st.secrets.get("api_keys", {})]: the table of keys, or the exception
    Streamlit raises when it cannot read its secrets. *)

Section Keys.

Variable os_getenv : string -> option string.
Variable secrets_api_keys : result pyval.

(** [os.getenv(key_name) or st.secrets.get("api_keys", {}).get(key_name)] *)
Definition get_api_key (key_name : string) : result pyval :=
  let from_secrets :=
    and_then secrets_api_keys (fun table =>
    Py.dict_get_default table key_name VNone) in
  match os_getenv key_name with
  | Some value =>
      if Py.truthy (VStr value) then Ok (VStr value) else from_secrets
  | None => from_secrets
  end.

Variable upstream : request -> result pyval.
Variable pd_to_datetime : list pyval -> result (list pyval).

(** The script: lines 19-21 load the three keys, then the page is
    rendered for the selected city. *)
Definition app (city : string) : M unit :=
  OPENWEATHERMAP_API_KEY <- lift (get_api_key "OPENWEATHERMAP_API_KEY") ;;
  OPENROUTESERVICE_API_KEY <- lift (get_api_key "OPENROUTESERVICE_API_KEY") ;;
  WAQI_API_TOKEN <- lift (get_api_key "WAQI_API_TOKEN") ;;
  render OPENWEATHERMAP_API_KEY OPENROUTESERVICE_API_KEY WAQI_API_TOKEN
    upstream pd_to_datetime city.

End Keys.

(** ** Reading a decoded response

    [field] and [path] say that a response carries a value under a key,
    or under a chain of keys of nested objects. *)

Definition field (key : string) (v : pyval) : option pyval :=
  match v with
  | VDict d => Py.dict_get key d
  | _ => None
  end.

Fixpoint path (keys : list string) (v : pyval) : option pyval :=
  match keys with
  | [] => Some v
  | key :: keys' =>
      match field key v with
      | Some x => path keys' x
      | None => None
      end
  end.

(** An object that lacks [key]. *)
Definition missing (key : string) (v : pyval) : Prop :=
  match v with
  | VDict d => Py.dict_get key d = None
  | _ => False
  end.

(** An object in which [key] is missing or bound to nothing (an empty
    list, [null]). *)
Definition absent_or_empty (key : string) (v : pyval) : Prop :=
  match v with
  | VDict d =>
      match Py.dict_get key d with
      | Some x => Py.truthy x = false
      | None => True
      end
  | _ => False
  end.

(** A routing response with no route feature. *)
Definition no_route_feature (response : pyval) : Prop :=
  absent_or_empty "features" response.

(** The three outputs of [get_pollution_data] are all [None], or none of
    them is. *)
Definition all_or_nothing (outputs : pyval * pyval * pyval) : bool :=
  let '(components, lat, lon) := outputs in
  (Py.is_none components && Py.is_none lat && Py.is_none lon)
  || (negb (Py.is_none components) && negb (Py.is_none lat)
      && negb (Py.is_none lon)).

(** The row that lines 102-104 build from a forecast entry carrying [day]
    and [avg]. *)
Definition aqi_sample (entry : pyval) : option row :=
  match field "day" entry, field "avg" entry with
  | Some day, Some avg => Some (mkRow day avg)
  | _, _ => None
  end.

(** The record line 77 returns. *)
Definition traffic_estimate (duration distance : pyval)
  (expected congestion : float) : pyval :=
  VDict [("duration", duration);
         ("distance", distance);
         ("expected_duration", VFloat expected);
         ("congestion", VFloat congestion)].

(** ** Sample inputs

    Concrete responses and worlds on which the properties below are run. *)

Definition empty_state : state := mkState [] [].

Definition sample_feature (duration distance : pyval) : pyval :=
  VDict [("properties",
          VDict [("summary",
                  VDict [("duration", duration); ("distance", distance)])])].

Definition sample_route (duration distance : pyval) : pyval :=
  VDict [("features", VList [sample_feature duration distance])].

(** Worlds that answer a request by the endpoint its URL starts with. *)
Definition starts_with (prefix : string) (r : request) : bool :=
  match url r with
  | Lit p :: _ => String.eqb p prefix
  | _ => false
  end.

Definition dashboard (weather pollution feed route : result pyval)
  : request -> result pyval :=
  fun r =>
    if starts_with "http://api.openweathermap.org/data/2.5/weather?q=" r
    then weather
    else if starts_with "http://api.openweathermap.org/data/2.5/air_pollution?lat=" r
    then pollution
    else if starts_with "https://api.waqi.info/feed/" r
    then feed
    else route.

Definition openweathermap (weather pollution : result pyval)
  : request -> result pyval :=
  dashboard weather pollution (Raise (RequestException "unreachable"))
    (Raise (RequestException "unreachable")).

Definition sample_weather (lat lon : pyval) : pyval :=
  VDict [("coord", VDict [("lon", lon); ("lat", lat)])].

Definition sample_pollution (components : pyval) : pyval :=
  VDict [("list", VList [VDict [("components", components)]])].

Definition sample_entry (day : string) (avg : Z) : pyval :=
  VDict [("avg", VInt avg); ("day", VStr day); ("max", VInt (avg + 20));
         ("min", VInt (avg - 20))].

Definition sample_feed (status : string) (data : pyval) : pyval :=
  VDict [("status", VStr status); ("data", data)].

Definition sample_forecast : pyval :=
  VDict [("aqi", VInt 152);
         ("forecast",
          VDict [("daily",
                  VDict [("pm25",
                          VList [sample_entry "2024-10-01" 140;
                                 sample_entry "2024-10-02" 155;
                                 sample_entry "2024-10-03" 131])])])].

Definition sample_row (i : Z) : row := mkRow (VInt i) (VInt (100 + i)).

Definition sample_frame : dataframe :=
  map sample_row [1; 2; 3; 4; 5; 6; 7; 8; 9; 10; 11; 12; 13; 14; 15; 16].

Definition sample_components : pyval :=
  VDict [("pm2_5", VFloat 45.2); ("co", VFloat 200.1)].

(** ** Properties *)

(** *** The number model on known quotients *)

Example int_true_div_third :
  Py.int_true_div 1 3 = Ok 0.33333333333333331%float.
Proof. vm_compute. reflexivity. Qed.

Example int_true_div_cm :
  Py.int_true_div 10 1000 = Ok 0.01%float.
Proof. vm_compute. reflexivity. Qed.

Example int_true_div_tie :
  Py.int_true_div (2 ^ 53 + 1) 1 = Ok 9007199254740992%float.
Proof. vm_compute. reflexivity. Qed.

Example int_true_div_underflow :
  Py.int_true_div (-1) (2 ^ 1080) = Ok (-0)%float.
Proof. vm_compute. reflexivity. Qed.

Example int_true_div_overflow :
  Py.int_true_div (2 ^ 1024) 1 = Raise OverflowError.
Proof. vm_compute. reflexivity. Qed.

Example float_of_int_big :
  Py.float_of_int (2 ^ 1024) = Raise OverflowError.
Proof. vm_compute. reflexivity. Qed.

(** *** Lookups *)

Lemma field_getitem (key : string) (v x : pyval) :
  field key v = Some x -> Py.getitem v key = Ok x.
Proof.
  destruct v; simpl; try discriminate.
  intros H; rewrite H; reflexivity.
Qed.

Lemma field_contains (key : string) (v x : pyval) :
  field key v = Some x -> Py.contains key v = Ok true.
Proof.
  destruct v; simpl; try discriminate.
  intros H; rewrite H; reflexivity.
Qed.

Lemma path_step (key : string) (keys : list string) (v y x : pyval) :
  field key v = Some y -> path keys y = Some x ->
  path (key :: keys) v = Some x.
Proof. intros Hy Hx. cbn [path]. rewrite Hy. exact Hx. Qed.

Lemma path_field (key : string) (v x : pyval) :
  field key v = Some x -> path [key] v = Some x.
Proof. intros H. cbn [path]. rewrite H. reflexivity. Qed.

Lemma getitem_field (key : string) (v x : pyval) :
  Py.getitem v key = Ok x -> field key v = Some x.
Proof.
  destruct v; simpl; try discriminate.
  destruct (Py.dict_get key d); [|discriminate].
  intros H; injection H as ->; reflexivity.
Qed.

Lemma getitem0_of_object (key : string) (l first x : pyval) :
  Py.getitem0 l = Ok first -> field key first = Some x ->
  exists rest, l = VList (first :: rest).
Proof.
  destruct l as [| | | |str|items|d]; simpl; try discriminate.
  - destruct str; [discriminate|].
    intros H; injection H as <-. discriminate.
  - destruct items as [|item rest]; [discriminate|].
    intros H; injection H as ->. intros _. exists rest. reflexivity.
Qed.

Lemma path_cons (key : string) (keys : list string) (v x : pyval) :
  path (key :: keys) v = Some x ->
  exists y, field key v = Some y /\ path keys y = Some x.
Proof.
  simpl. destruct (field key v) as [y|]; [|discriminate].
  intros H; exists y; split; [reflexivity | exact H].
Qed.

Lemma expected_duration_float (d : float) :
  expected_duration (VFloat d) = Ok (d / 1000 / 50 * 3600)%float.
Proof. vm_compute. reflexivity. Qed.

Lemma add_float (x y : float) :
  Py.add (VFloat x) (VFloat y) = Ok (VFloat (x + y)%float).
Proof. reflexivity. Qed.

Section Traffic.

Variable OPENROUTESERVICE_API_KEY : pyval.
Variable upstream : request -> result pyval.

(** The one request of [get_traffic_data] for a float origin. *)
Local Notation route_request lat lon :=
  (directions_request OPENROUTESERVICE_API_KEY
     [Fmt (VFloat lon); Lit ","; Fmt (VFloat lat)]
     [Fmt (VFloat (lon + 0.01)%float); Lit ",";
      Fmt (VFloat (lat + 0.01)%float)]).

Local Notation traffic := (get_traffic_data OPENROUTESERVICE_API_KEY upstream).

Lemma traffic_of_summary (lat lon : float) (response first : pyval)
  (rest : list pyval) (duration distance : pyval) (s : state) :
  upstream (route_request lat lon) = Ok response ->
  path ["features"] response = Some (VList (first :: rest)) ->
  path ["properties"; "summary"; "duration"] first = Some duration ->
  path ["properties"; "summary"; "distance"] first = Some distance ->
  traffic (VFloat lat) (VFloat lon) s =
    let s' := mkState (page s) (sent s ++ [route_request lat lon]) in
    match
      and_then (expected_duration distance) (fun e =>
      and_then (congestion_percentage duration e) (fun c =>
      Ok (traffic_estimate duration distance e c)))
    with
    | Ok v => (Ok v, s')
    | Raise e =>
        (Ok VNone,
         mkState
           (page s ++ [StError [Lit "Failed to retrieve traffic data: "; FmtExn e]])
           (sent s'))
    end.
Proof.
  intros Hup Hf Hdur Hdist.
  apply path_cons in Hf as (fs & Hfs & Hfs'). simpl in Hfs'. injection Hfs' as ->.
  apply path_cons in Hdur as (props & Hprops & Hdur).
  apply path_cons in Hdur as (summ & Hsumm & Hdur).
  apply path_cons in Hdur as (du & Hdu & Hdur). simpl in Hdur. injection Hdur as ->.
  apply path_cons in Hdist as (props' & Hprops' & Hdist).
  rewrite Hprops in Hprops'. injection Hprops' as <-.
  apply path_cons in Hdist as (summ' & Hsumm' & Hdist).
  rewrite Hsumm in Hsumm'. injection Hsumm' as <-.
  apply path_cons in Hdist as (di & Hdi & Hdist). simpl in Hdist. injection Hdist as ->.
  unfold get_traffic_data.
  unfold bind at 1. unfold lift at 1. rewrite add_float.
  unfold bind at 1. unfold lift at 1. rewrite add_float.
  unfold try_except, bind, requests_get_json, present_and_truthy, lift, ret.
  rewrite Hup.
  rewrite (field_contains _ _ _ Hfs), (field_getitem _ _ _ Hfs).
  cbn [Py.truthy Py.getitem0].
  rewrite (field_getitem _ _ _ Hprops), (field_getitem _ _ _ Hsumm),
    (field_getitem _ _ _ Hdu), (field_getitem _ _ _ Hdi).
  destruct (expected_duration distance) as [e|ex]; cbn [and_then].
  - destruct (congestion_percentage duration e) as [c|ex]; reflexivity.
  - reflexivity.
Qed.

Lemma float_mul_int_100 (x : float) :
  Py.float_mul_int x 100 = Ok (x * 100)%float.
Proof. vm_compute. reflexivity. Qed.

Lemma congestion_float (t e : float) :
  (e =? 0)%float = false ->
  congestion_percentage (VFloat t) e = Ok ((t - e) / e * 100)%float.
Proof.
  intros He. unfold congestion_percentage.
  change (Py.sub (VFloat t) (VFloat e)) with (Ok (VFloat (t - e)%float)).
  cbn [and_then].
  change (Py.truediv (VFloat (t - e)) (VFloat e)) with (Py.float_div (t - e) e).
  unfold Py.float_div. rewrite He. cbn [and_then].
  apply float_mul_int_100.
Qed.

Lemma float_div_by_zero (x e : float) :
  (e =? 0)%float = true -> Py.float_div x e = Raise ZeroDivisionError.
Proof. intros He. unfold Py.float_div. rewrite He. reflexivity. Qed.

Lemma congestion_by_zero (duration : pyval) (e : float) :
  (e =? 0)%float = true ->
  exists ex,
    congestion_percentage duration e = Raise ex /\
    (forall t, duration = VFloat t -> ex = ZeroDivisionError).
Proof.
  intros He. unfold congestion_percentage, Py.sub.
  destruct (Py.as_number duration) as [[z|f]|] eqn:Hnum.
  - cbn [Py.as_number Py.arith Py.to_float].
    destruct (Py.float_of_int z) as [fz|ex].
    + exists ZeroDivisionError. split.
      * cbn [and_then].
        change (Py.truediv (VFloat (fz - e)) (VFloat e)) with (Py.float_div (fz - e) e).
        rewrite (float_div_by_zero _ _ He). reflexivity.
      * reflexivity.
    + exists ex. split; [reflexivity|].
      intros t ->. discriminate Hnum.
  - exists ZeroDivisionError. split; [|reflexivity].
    cbn [Py.as_number Py.arith Py.to_float and_then].
    change (Py.truediv (VFloat (f - e)) (VFloat e)) with (Py.float_div (f - e) e).
    rewrite (float_div_by_zero _ _ He). reflexivity.
  - exists TypeError. split; [reflexivity|].
    intros t ->. discriminate Hnum.
Qed.

(** C1: for a route response with a summary, [get_traffic_data] returns
    the record whose congestion is what line 75 computes from the
    duration and the expected duration [e]; for a float duration [t] and a
    float distance that is [(t - e) / e * 100], whenever [e] is not zero.
    When the expected duration is zero the division error is caught, a
    message is shown and the function returns [None]; this is the case for
    a distance of 0 (the int, or the float of either sign). *)
Theorem congestion_or_absent (lat lon : float) (response first : pyval)
  (rest : list pyval) (duration distance : pyval) (s : state) :
  upstream (route_request lat lon) = Ok response ->
  path ["features"] response = Some (VList (first :: rest)) ->
  path ["properties"; "summary"; "duration"] first = Some duration ->
  path ["properties"; "summary"; "distance"] first = Some distance ->
  (forall e c : float,
      expected_duration distance = Ok e ->
      congestion_percentage duration e = Ok c ->
      fst (traffic (VFloat lat) (VFloat lon) s)
      = Ok (traffic_estimate duration distance e c))
  /\
  (forall t d : float,
      duration = VFloat t -> distance = VFloat d ->
      let e := (d / 1000 / 50 * 3600)%float in
      (e =? 0)%float = false ->
      fst (traffic (VFloat lat) (VFloat lon) s)
      = Ok (traffic_estimate duration distance e ((t - e) / e * 100)%float))
  /\
  (forall e : float,
      expected_duration distance = Ok e -> (e =? 0)%float = true ->
      exists ex,
        traffic (VFloat lat) (VFloat lon) s
        = (Ok VNone,
           mkState
             (page s ++ [StError [Lit "Failed to retrieve traffic data: "; FmtExn ex]])
             (sent s ++ [route_request lat lon]))
        /\ (forall t, duration = VFloat t -> ex = ZeroDivisionError))
  /\
  (In distance [VInt 0; VFloat 0; VFloat (-0)] ->
   exists e : float,
     expected_duration distance = Ok e /\ (e =? 0)%float = true /\
     fst (traffic (VFloat lat) (VFloat lon) s) = Ok VNone).
Proof.
  intros Hup Hf Hdur Hdist.
  pose proof (traffic_of_summary lat lon response first rest duration distance s
                Hup Hf Hdur Hdist) as Hrun.
  cbv zeta in Hrun.
  assert (Hzero : forall e : float,
             expected_duration distance = Ok e -> (e =? 0)%float = true ->
             exists ex,
               traffic (VFloat lat) (VFloat lon) s
               = (Ok VNone,
                  mkState
                    (page s ++ [StError [Lit "Failed to retrieve traffic data: "; FmtExn ex]])
                    (sent s ++ [route_request lat lon]))
               /\ (forall t, duration = VFloat t -> ex = ZeroDivisionError)).
  { intros e He Hz.
    destruct (congestion_by_zero duration e Hz) as (ex & Hex & Hzd).
    exists ex. split; [|exact Hzd].
    rewrite Hrun, He. cbn [and_then]. rewrite Hex. reflexivity. }
  split; [|split; [|split]].
  - intros e c He Hc. rewrite Hrun, He. cbn [and_then]. rewrite Hc. reflexivity.
  - intros t d -> -> e He.
    rewrite Hrun, expected_duration_float. cbn [and_then].
    fold e. rewrite (congestion_float t e He). reflexivity.
  - exact Hzero.
  - intros Hin.
    assert (Hexp : exists e : float,
               expected_duration distance = Ok e /\ (e =? 0)%float = true).
    { simpl in Hin. destruct Hin as [<-|[<-|[<-|[]]]].
      - exists 0%float. split; vm_compute; reflexivity.
      - exists 0%float. split; vm_compute; reflexivity.
      - exists (-0)%float. split; vm_compute; reflexivity. }
    destruct Hexp as (e & He & Hz).
    exists e. split; [exact He|]. split; [exact Hz|].
    destruct (Hzero e He Hz) as (ex & Hex & _). rewrite Hex. reflexivity.
Qed.

(** C5: for a route response that provides a float distance [d] in
    meters, [get_traffic_data] computes the expected duration as exactly
    [(d / 1000) / 50 * 3600]: that value [e] is what line 73 yields, it is
    the one the congestion of line 75 is computed from, and whenever that
    congestion is computed (for a float duration: whenever [e] is not
    zero) the function returns the record whose [expected_duration] is
    [e]; it returns [None] only when line 75 raises.  For any distance
    whose division by 1000 yields [km], line 73 yields [km / 50 * 3600]. *)
Theorem expected_duration_exact (lat lon : float) (response first : pyval)
  (rest : list pyval) (duration : pyval) (d : float) (s : state) :
  upstream (route_request lat lon) = Ok response ->
  path ["features"] response = Some (VList (first :: rest)) ->
  path ["properties"; "summary"; "duration"] first = Some duration ->
  path ["properties"; "summary"; "distance"] first = Some (VFloat d) ->
  let e := (d / 1000 / 50 * 3600)%float in
  (forall (distance : pyval) (km : float),
      Py.truediv distance (VInt 1000) = Ok km ->
      expected_duration distance = Ok (km / 50 * 3600)%float) /\
  expected_duration (VFloat d) = Ok e /\
  (forall c : float,
      congestion_percentage duration e = Ok c ->
      traffic (VFloat lat) (VFloat lon) s
      = (Ok (traffic_estimate duration (VFloat d) e c),
         mkState (page s) (sent s ++ [route_request lat lon]))) /\
  (forall t : float,
      duration = VFloat t ->
      (e =? 0)%float = false ->
      fst (traffic (VFloat lat) (VFloat lon) s)
      = Ok (traffic_estimate (VFloat t) (VFloat d) e ((t - e) / e * 100)%float)
      /\ field "expected_duration"
           (traffic_estimate (VFloat t) (VFloat d) e ((t - e) / e * 100)%float)
         = Some (VFloat e)) /\
  (forall ex,
      congestion_percentage duration e = Raise ex ->
      fst (traffic (VFloat lat) (VFloat lon) s) = Ok VNone).
Proof.
  intros Hup Hf Hdur Hdist e.
  pose proof (traffic_of_summary lat lon response first rest duration (VFloat d) s
                Hup Hf Hdur Hdist) as Hrun.
  cbv zeta in Hrun. rewrite expected_duration_float in Hrun.
  cbn [and_then] in Hrun. fold e in Hrun.
  split.
  { intros distance km Hkm. unfold expected_duration. rewrite Hkm.
    vm_compute. reflexivity. }
  split; [apply expected_duration_float|].
  split; [|split].
  - intros c Hc. rewrite Hrun, Hc. reflexivity.
  - intros t -> He. split; [|reflexivity].
    rewrite Hrun, (congestion_float t e He). reflexivity.
  - intros ex Hex. rewrite Hrun, Hex. reflexivity.
Qed.


Lemma traffic_request_raises (lat lon : float) (s : state) (ex : exn) :
  upstream (route_request lat lon) = Raise ex ->
  traffic (VFloat lat) (VFloat lon) s
  = (Ok VNone,
     mkState
       (page s ++ [StError [Lit "Failed to retrieve traffic data: "; FmtExn ex]])
       (sent s ++ [route_request lat lon])).
Proof.
  intros Hup. unfold get_traffic_data.
  unfold try_except, bind, requests_get_json, lift, st_error, show, ret.
  cbn [Py.add Py.as_number Py.arith Py.to_float].
  rewrite Hup. reflexivity.
Qed.

(** C3: for a float origin [get_traffic_data] never raises.  A response
    with no route feature makes it return [None] and show "No route found
    in the API response."; an exception raised by the request is caught,
    shown after "Failed to retrieve traffic data: ", and [None] is
    returned. *)
Theorem traffic_contains_failures (lat lon : float) (s : state) :
  (exists v, fst (traffic (VFloat lat) (VFloat lon) s) = Ok v) /\
  (forall response,
      upstream (route_request lat lon) = Ok response ->
      no_route_feature response ->
      traffic (VFloat lat) (VFloat lon) s
      = (Ok VNone,
         mkState (page s ++ [StError [Lit "No route found in the API response."]])
           (sent s ++ [route_request lat lon]))) /\
  (forall ex,
      upstream (route_request lat lon) = Raise ex ->
      traffic (VFloat lat) (VFloat lon) s
      = (Ok VNone,
         mkState
           (page s ++ [StError [Lit "Failed to retrieve traffic data: "; FmtExn ex]])
           (sent s ++ [route_request lat lon]))).
Proof.
  unfold get_traffic_data.
  split; [|split].
  - unfold bind at 1. unfold lift at 1. rewrite add_float.
    unfold bind at 1. unfold lift at 1. rewrite add_float.
    unfold try_except.
    match goal with
    | |- context [let (_, _) := ?body in _] => destruct body as [[v|ex] s']
    end.
    + exists v. reflexivity.
    + exists VNone. reflexivity.
  - intros response Hup Hno.
    unfold present_and_truthy.
    unfold try_except, bind, requests_get_json, lift, ret, st_error, show.
    cbn [Py.add Py.as_number Py.arith Py.to_float].
    rewrite Hup.
    destruct response as [| | | | |l|d]; try contradiction.
    unfold no_route_feature, absent_or_empty in Hno.
    cbn [Py.contains Py.getitem].
    destruct (Py.dict_get "features" d) as [features|].
    + rewrite Hno. reflexivity.
    + reflexivity.
  - intros ex Hup. fold (get_traffic_data OPENROUTESERVICE_API_KEY upstream).
    exact (traffic_request_raises lat lon s ex Hup).
Qed.

End Traffic.

Lemma congestion_or_absent_witness :
  path ["properties"; "summary"; "distance"] (sample_feature (VFloat 120) (VFloat 1000))
  = Some (VFloat 1000) /\
  fst (get_traffic_data (VStr "key")
         (fun _ => Ok (sample_route (VFloat 120) (VFloat 1000)))
         (VFloat 28.6) (VFloat 77.2) empty_state)
  = Ok (traffic_estimate (VFloat 120) (VFloat 1000) 72
          ((120 - 72) / 72 * 100)%float) /\
  fst (get_traffic_data (VStr "key")
         (fun _ => Ok (sample_route (VFloat 120) (VInt 0)))
         (VFloat 28.6) (VFloat 77.2) empty_state)
  = Ok VNone.
Proof.
  split; [reflexivity|]. split.
  - exact (proj1 (proj2
             (congestion_or_absent (VStr "key")
                (fun _ => Ok (sample_route (VFloat 120) (VFloat 1000)))
                28.6 77.2 (sample_route (VFloat 120) (VFloat 1000))
                (sample_feature (VFloat 120) (VFloat 1000)) []
                (VFloat 120) (VFloat 1000) empty_state
                eq_refl eq_refl eq_refl eq_refl))
             120%float 1000%float eq_refl eq_refl eq_refl).
  - destruct (proj2 (proj2 (proj2
             (congestion_or_absent (VStr "key")
                (fun _ => Ok (sample_route (VFloat 120) (VInt 0)))
                28.6 77.2 (sample_route (VFloat 120) (VInt 0))
                (sample_feature (VFloat 120) (VInt 0)) []
                (VFloat 120) (VInt 0) empty_state
                eq_refl eq_refl eq_refl eq_refl)))
             (or_introl eq_refl)) as (e & _ & _ & H).
    exact H.
Defined.

Lemma expected_duration_exact_witness :
  path ["properties"; "summary"; "distance"]
    (sample_feature (VFloat 120) (VFloat 1500))
  = Some (VFloat 1500) /\
  fst (get_traffic_data (VStr "key")
         (fun _ => Ok (sample_route (VFloat 120) (VFloat 1500)))
         (VFloat 28.6) (VFloat 77.2) empty_state)
  = Ok (traffic_estimate (VFloat 120) (VFloat 1500) (1500 / 1000 / 50 * 3600)
          ((120 - 108) / 108 * 100)%float) /\
  (1500 / 1000 / 50 * 3600)%float = 108%float.
Proof.
  split; [reflexivity|]. split; [|reflexivity].
  exact (proj1
           (proj1 (proj2 (proj2 (proj2
              (expected_duration_exact (VStr "key")
                 (fun _ => Ok (sample_route (VFloat 120) (VFloat 1500)))
                 28.6 77.2 (sample_route (VFloat 120) (VFloat 1500))
                 (sample_feature (VFloat 120) (VFloat 1500)) []
                 (VFloat 120) 1500 empty_state
                 eq_refl eq_refl eq_refl eq_refl))))
              120%float eq_refl eq_refl)).
Defined.

Lemma traffic_contains_failures_witness :
  no_route_feature (VDict [("features", VList [])]) /\
  get_traffic_data (VStr "key") (fun _ => Ok (VDict [("features", VList [])]))
    (VFloat 28.6) (VFloat 77.2) empty_state
  = (Ok VNone,
     mkState [StError [Lit "No route found in the API response."]]
       [directions_request (VStr "key")
          [Fmt (VFloat 77.2); Lit ","; Fmt (VFloat 28.6)]
          [Fmt (VFloat (77.2 + 0.01)%float); Lit ",";
           Fmt (VFloat (28.6 + 0.01)%float)]]) /\
  fst (get_traffic_data (VStr "key") (fun _ => Raise (RequestException "timeout"))
         (VFloat 28.6) (VFloat 77.2) empty_state)
  = Ok VNone.
Proof.
  split; [reflexivity|]. split.
  - exact (proj1 (proj2
             (traffic_contains_failures (VStr "key")
                (fun _ => Ok (VDict [("features", VList [])]))
                28.6 77.2 empty_state))
             (VDict [("features", VList [])]) eq_refl eq_refl).
  - exact (f_equal fst
             (proj2 (proj2
                (traffic_contains_failures (VStr "key")
                   (fun _ => Raise (RequestException "timeout"))
                   28.6 77.2 empty_state))
                (RequestException "timeout") eq_refl)).
Defined.

Lemma bind_lift_ok {A B} (r : result A) (a : A) (k : A -> M B) (s : state) :
  r = Ok a -> bind (lift r) k s = k a s.
Proof. intros ->. reflexivity. Qed.

Lemma bind_lift_raise {A B} (r : result A) (e : exn) (k : A -> M B) (s : state) :
  r = Raise e -> bind (lift r) k s = (Raise e, s).
Proof. intros ->. reflexivity. Qed.

Lemma bind_request {B} (upstream : request -> result pyval) (r : request)
  (v : pyval) (k : pyval -> M B) (s : state) :
  upstream r = Ok v ->
  bind (requests_get_json upstream r) k s
  = k v (mkState (page s) (sent s ++ [r])).
Proof. intros H. unfold bind, requests_get_json. rewrite H. reflexivity. Qed.

Lemma bind_request_raise {B} (upstream : request -> result pyval) (r : request)
  (e : exn) (k : pyval -> M B) (s : state) :
  upstream r = Raise e ->
  bind (requests_get_json upstream r) k s
  = (Raise e, mkState (page s) (sent s ++ [r])).
Proof. intros H. unfold bind, requests_get_json. rewrite H. reflexivity. Qed.

Lemma absent_or_empty_test (key : string) (v : pyval) :
  absent_or_empty key v ->
  Py.contains key v = Ok false \/
  exists x, Py.contains key v = Ok true /\ Py.getitem v key = Ok x
            /\ Py.truthy x = false.
Proof.
  destruct v as [| | | | | |d]; simpl; try contradiction.
  destruct (Py.dict_get key d) as [x|].
  - intros Hx. right. exists x. auto.
  - intros _. left. reflexivity.
Qed.

Section Pollution.

Variable OPENWEATHERMAP_API_KEY : pyval.
Variable upstream : request -> result pyval.

Local Notation weather city := (weather_request OPENWEATHERMAP_API_KEY city).
Local Notation air lat lon :=
  (air_pollution_request OPENWEATHERMAP_API_KEY lat lon).
Local Notation pollution := (get_pollution_data OPENWEATHERMAP_API_KEY upstream).

Lemma pollution_no_coord (city : string) (s : state) (r1 : pyval) :
  upstream (weather city) = Ok r1 ->
  missing "coord" r1 ->
  pollution city s
  = (Ok (VNone, VNone, VNone),
     mkState (page s ++ [StError [Lit "City not found or invalid API key."]])
       (sent s ++ [weather city])).
Proof.
  intros Hup Hmiss.
  destruct r1 as [| | | | | |d]; try contradiction. simpl in Hmiss.
  unfold get_pollution_data, bind, requests_get_json, lift, ret, st_error, show.
  rewrite Hup. cbn [Py.contains]. rewrite Hmiss. reflexivity.
Qed.

Lemma pollution_with_coord (city : string) (s : state) (r1 lat lon : pyval) :
  upstream (weather city) = Ok r1 ->
  path ["coord"; "lat"] r1 = Some lat ->
  path ["coord"; "lon"] r1 = Some lon ->
  pollution city s
  = (pollution_response <- requests_get_json upstream (air lat lon) ;;
     has_list <- present_and_truthy pollution_response "list" ;;
     if has_list then
       entries <- lift (Py.getitem pollution_response "list") ;;
       first <- lift (Py.getitem0 entries) ;;
       components <- lift (Py.getitem first "components") ;;
       ret (components, lat, lon)
     else
       st_error [Lit "Pollution data not available for the selected city."] ;;
       ret (VNone, VNone, VNone))
      (mkState (page s) (sent s ++ [weather city])).
Proof.
  intros Hup Hlat Hlon.
  apply path_cons in Hlat as (coord & Hcoord & Hlat).
  apply path_cons in Hlat as (la & Hla & Hlat). simpl in Hlat. injection Hlat as ->.
  apply path_cons in Hlon as (coord' & Hcoord' & Hlon).
  rewrite Hcoord in Hcoord'. injection Hcoord' as <-.
  apply path_cons in Hlon as (lo & Hlo & Hlon). simpl in Hlon. injection Hlon as ->.
  unfold get_pollution_data.
  rewrite (bind_request _ _ _ _ _ Hup).
  rewrite (bind_lift_ok _ _ _ _ (field_contains _ _ _ Hcoord)).
  rewrite (bind_lift_ok _ _ _ _ (field_getitem _ _ _ Hcoord)).
  rewrite (bind_lift_ok _ _ _ _ (field_getitem _ _ _ Hla)).
  rewrite (bind_lift_ok _ _ _ _ (field_getitem _ _ _ Hcoord)).
  rewrite (bind_lift_ok _ _ _ _ (field_getitem _ _ _ Hlo)).
  reflexivity.
Qed.

Lemma pollution_weather_raises (city : string) (s : state) (ex : exn) :
  upstream (weather city) = Raise ex ->
  pollution city s = (Raise ex, mkState (page s) (sent s ++ [weather city])).
Proof.
  intros Hup. unfold get_pollution_data.
  apply (bind_request_raise _ _ _ _ _ Hup).
Qed.

Lemma pollution_air_raises (city : string) (s : state) (r1 lat lon : pyval)
  (ex : exn) :
  upstream (weather city) = Ok r1 ->
  path ["coord"; "lat"] r1 = Some lat ->
  path ["coord"; "lon"] r1 = Some lon ->
  upstream (air lat lon) = Raise ex ->
  pollution city s
  = (Raise ex, mkState (page s) (sent s ++ [weather city; air lat lon])).
Proof.
  intros Hup Hlat Hlon Hair.
  rewrite (pollution_with_coord city s r1 lat lon Hup Hlat Hlon).
  rewrite (bind_request_raise _ _ _ _ _ Hair).
  cbn [page sent]. rewrite <- app_assoc. reflexivity.
Qed.

Lemma pollution_no_list (city : string) (s : state) (r1 lat lon r2 : pyval) :
  upstream (weather city) = Ok r1 ->
  path ["coord"; "lat"] r1 = Some lat ->
  path ["coord"; "lon"] r1 = Some lon ->
  upstream (air lat lon) = Ok r2 ->
  absent_or_empty "list" r2 ->
  pollution city s
  = (Ok (VNone, VNone, VNone),
     mkState
       (page s ++ [StError [Lit "Pollution data not available for the selected city."]])
       (sent s ++ [weather city; air lat lon])).
Proof.
  intros Hup Hlat Hlon Hair Hno.
  rewrite (pollution_with_coord city s r1 lat lon Hup Hlat Hlon).
  rewrite (bind_request _ _ _ _ _ Hair).
  unfold present_and_truthy.
  destruct (absent_or_empty_test _ _ Hno) as [Hc|(x & Hc & Hx & Hfalse)].
  - unfold bind, lift, ret, st_error, show. rewrite Hc.
    cbn [page sent]. rewrite <- app_assoc. reflexivity.
  - unfold bind, lift, ret, st_error, show. rewrite Hc, Hx, Hfalse.
    cbn [page sent]. rewrite <- app_assoc. reflexivity.
Qed.

Lemma pollution_found (city : string) (s : state)
  (r1 lat lon r2 first : pyval) (rest : list pyval) (components : pyval) :
  upstream (weather city) = Ok r1 ->
  path ["coord"; "lat"] r1 = Some lat ->
  path ["coord"; "lon"] r1 = Some lon ->
  upstream (air lat lon) = Ok r2 ->
  path ["list"] r2 = Some (VList (first :: rest)) ->
  field "components" first = Some components ->
  pollution city s
  = (Ok (components, lat, lon),
     mkState (page s) (sent s ++ [weather city; air lat lon])).
Proof.
  intros Hup Hlat Hlon Hair Hlist Hcomp.
  apply path_cons in Hlist as (l & Hl & Hlist). simpl in Hlist. injection Hlist as ->.
  rewrite (pollution_with_coord city s r1 lat lon Hup Hlat Hlon).
  rewrite (bind_request _ _ _ _ _ Hair).
  unfold present_and_truthy, bind, lift, ret.
  rewrite (field_contains _ _ _ Hl), (field_getitem _ _ _ Hl).
  cbn [Py.truthy Py.getitem0].
  rewrite (field_getitem _ _ _ Hcomp).
  cbn [page sent]. rewrite <- app_assoc. reflexivity.
Qed.

Lemma pollution_returns_inv (city : string) (s : state)
  (out : pyval * pyval * pyval) :
  fst (pollution city s) = Ok out ->
  out = (VNone, VNone, VNone) \/
  exists r1 r2 first rest,
    upstream (weather city) = Ok r1 /\
    path ["coord"; "lat"] r1 = Some (snd (fst out)) /\
    path ["coord"; "lon"] r1 = Some (snd out) /\
    upstream (air (snd (fst out)) (snd out)) = Ok r2 /\
    path ["list"] r2 = Some (VList (first :: rest)) /\
    field "components" first = Some (fst (fst out)).
Proof.
  unfold get_pollution_data, present_and_truthy.
  unfold bind, requests_get_json, lift, ret, st_error, show.
  destruct (upstream (weather city)) as [r1|ex] eqn:Hup; [|discriminate].
  destruct (Py.contains "coord" r1) as [[|]|ex] eqn:Hhas; try discriminate.
  2:{ cbn [fst]. intros H; injection H as <-. left. reflexivity. }
  destruct (Py.getitem r1 "coord") as [coord|ex] eqn:Hcoord; [|discriminate].
  destruct (Py.getitem coord "lat") as [lat|ex] eqn:Hlat; [|discriminate].
  destruct (Py.getitem coord "lon") as [lon|ex] eqn:Hlon; [|discriminate].
  cbn [page sent].
  destruct (upstream (air lat lon)) as [r2|ex] eqn:Hair; [|discriminate].
  destruct (Py.contains "list" r2) as [[|]|ex] eqn:Hhas2; try discriminate.
  2:{ cbn [fst]. intros H; injection H as <-. left. reflexivity. }
  destruct (Py.getitem r2 "list") as [l|ex] eqn:Hl; [|discriminate].
  destruct (Py.truthy l) eqn:Htruthy.
  2:{ cbn [fst]. intros H; injection H as <-. left. reflexivity. }
  destruct (Py.getitem0 l) as [first|ex] eqn:Hfirst; [|discriminate].
  destruct (Py.getitem first "components") as [c|ex] eqn:Hc; [|discriminate].
  cbn [fst]. intros H; injection H as <-. right.
  apply getitem_field in Hcoord, Hlat, Hlon, Hl, Hc.
  destruct (getitem0_of_object _ _ _ _ Hfirst Hc) as (rest & ->).
  exists r1, r2, first, rest. cbn [fst snd].
  repeat split; try assumption.
  - exact (path_step _ _ _ _ _ Hcoord (path_field _ _ _ Hlat)).
  - exact (path_step _ _ _ _ _ Hcoord (path_field _ _ _ Hlon)).
  - exact (path_field _ _ _ Hl).
Qed.

(** C2, as amended: whenever [get_pollution_data] returns, its three
    outputs are all [None] or are exactly the first list entry's
    components, [coord.lat] and [coord.lon] as upstream sent them.  On
    response objects it returns: all [None] (with its message) when the
    weather response has no [coord] or the pollution response has no
    non-empty [list], and the upstream triple otherwise, which is complete
    when none of the three values is [null]. *)
Theorem pollution_complete_or_absent (city : string) (s : state) :
  (forall out,
      fst (pollution city s) = Ok out ->
      out = (VNone, VNone, VNone) \/
      exists r1 r2 first rest,
        upstream (weather city) = Ok r1 /\
        path ["coord"; "lat"] r1 = Some (snd (fst out)) /\
        path ["coord"; "lon"] r1 = Some (snd out) /\
        upstream (air (snd (fst out)) (snd out)) = Ok r2 /\
        path ["list"] r2 = Some (VList (first :: rest)) /\
        field "components" first = Some (fst (fst out))) /\
  (forall r1,
      upstream (weather city) = Ok r1 ->
      (missing "coord" r1 ->
       pollution city s
       = (Ok (VNone, VNone, VNone),
          mkState (page s ++ [StError [Lit "City not found or invalid API key."]])
            (sent s ++ [weather city]))) /\
      (forall lat lon r2,
          path ["coord"; "lat"] r1 = Some lat ->
          path ["coord"; "lon"] r1 = Some lon ->
          upstream (air lat lon) = Ok r2 ->
          (absent_or_empty "list" r2 ->
           pollution city s
           = (Ok (VNone, VNone, VNone),
              mkState
                (page s ++
                 [StError [Lit "Pollution data not available for the selected city."]])
                (sent s ++ [weather city; air lat lon]))) /\
          (forall first rest components,
              path ["list"] r2 = Some (VList (first :: rest)) ->
              field "components" first = Some components ->
              pollution city s
              = (Ok (components, lat, lon),
                 mkState (page s) (sent s ++ [weather city; air lat lon]))
              /\ (Py.is_none components = false ->
                  Py.is_none lat = false ->
                  Py.is_none lon = false ->
                  all_or_nothing (components, lat, lon) = true)))).
Proof.
  split.
  - intros out. apply pollution_returns_inv.
  - intros r1 Hup. split.
    + intros Hmiss. exact (pollution_no_coord city s r1 Hup Hmiss).
    + intros lat lon r2 Hlat Hlon Hair. split.
      * intros Hno.
        exact (pollution_no_list city s r1 lat lon r2 Hup Hlat Hlon Hair Hno).
      * intros first rest components Hlist Hcomp. split.
        -- exact (pollution_found city s r1 lat lon r2 first rest components
                    Hup Hlat Hlon Hair Hlist Hcomp).
        -- intros Hc Hla Hlo. unfold all_or_nothing.
           rewrite Hc, Hla, Hlo. reflexivity.
Qed.

End Pollution.

(** End-to-end scenario A of the specification. *)
Lemma pollution_complete_or_absent_witness :
  path ["coord"; "lat"] (sample_weather (VFloat 28.6) (VFloat 77.2))
  = Some (VFloat 28.6) /\
  fst (get_pollution_data (VStr "key")
         (openweathermap (Ok (sample_weather (VFloat 28.6) (VFloat 77.2)))
            (Ok (sample_pollution sample_components)))
         "Delhi" empty_state)
  = Ok (sample_components, VFloat 28.6, VFloat 77.2) /\
  all_or_nothing (sample_components, VFloat 28.6, VFloat 77.2) = true.
Proof.
  split; [reflexivity|].
  pose proof
    (proj2
       (proj2
          (proj2
             (pollution_complete_or_absent (VStr "key")
                (openweathermap (Ok (sample_weather (VFloat 28.6) (VFloat 77.2)))
                   (Ok (sample_pollution sample_components)))
                "Delhi" empty_state)
             (sample_weather (VFloat 28.6) (VFloat 77.2)) eq_refl)
          (VFloat 28.6) (VFloat 77.2) (sample_pollution sample_components)
          eq_refl eq_refl eq_refl)
       (VDict [("components", sample_components)]) [] sample_components
       eq_refl eq_refl) as [Hrun Hcomplete].
  split.
  - rewrite Hrun. reflexivity.
  - apply Hcomplete; reflexivity.
Defined.

(** C2, as stated, fails: a pollution response whose first entry binds
    [components] to [null] makes [get_pollution_data] return both
    coordinates without a pollutant mapping. *)
Lemma pollution_partial_pair :
  fst (get_pollution_data (VStr "key")
         (openweathermap (Ok (sample_weather (VFloat 28.6) (VFloat 77.2)))
            (Ok (sample_pollution VNone)))
         "Delhi" empty_state)
  = Ok (VNone, VFloat 28.6, VFloat 77.2) /\
  all_or_nothing (VNone, VFloat 28.6, VFloat 77.2) = false.
Proof. split; reflexivity. Qed.

Lemma missing_getitem (key : string) (v : pyval) :
  missing key v -> Py.getitem v key = Raise (KeyError (VStr key)).
Proof.
  destruct v; simpl; try contradiction.
  intros H; rewrite H; reflexivity.
Qed.

Lemma getitem_object (key key' : string) (v x : pyval) :
  field key v = Some x ->
  (exists y, Py.getitem v key' = Ok y) \/
  Py.getitem v key' = Raise (KeyError (VStr key')).
Proof.
  destruct v; simpl; try discriminate.
  intros _. destruct (Py.dict_get key' d) as [y|].
  - left. exists y. reflexivity.
  - right. reflexivity.
Qed.

Lemma missing_object (key key' : string) (v : pyval) :
  missing key v ->
  (exists y, Py.getitem v key' = Ok y) \/
  Py.getitem v key' = Raise (KeyError (VStr key')).
Proof.
  destruct v; simpl; try contradiction.
  intros _. destruct (Py.dict_get key' d) as [y|].
  - left. exists y. reflexivity.
  - right. reflexivity.
Qed.

Lemma eq_str_false (v : pyval) (lit : string) :
  v <> VStr lit -> Py.eq_str v lit = false.
Proof.
  intros Hne. destruct v; try reflexivity.
  simpl. apply String.eqb_neq. intros ->. apply Hne. reflexivity.
Qed.

Lemma append_samples_rows (entries : list pyval) :
  forall (rows acc : list row),
    map aqi_sample entries = map Some rows ->
    append_samples entries acc = Ok (acc ++ rows).
Proof.
  induction entries as [|entry entries IH]; intros rows acc Hmap.
  - destruct rows; [|discriminate]. simpl. rewrite app_nil_r. reflexivity.
  - destruct rows as [|r rows]; [discriminate|].
    simpl in Hmap. injection Hmap as Hentry Hrest.
    unfold aqi_sample in Hentry.
    destruct (field "day" entry) as [day|] eqn:Hday; [|discriminate].
    destruct (field "avg" entry) as [avg|] eqn:Havg; [|discriminate].
    injection Hentry as <-.
    cbn [append_samples].
    rewrite (field_getitem _ _ _ Hday), (field_getitem _ _ _ Havg).
    cbn [and_then]. rewrite (IH rows _ Hrest).
    rewrite <- app_assoc. reflexivity.
Qed.

Section History.

Variable WAQI_API_TOKEN : pyval.
Variable upstream : request -> result pyval.

Local Notation feed city := (feed_request WAQI_API_TOKEN city).
Local Notation history := (get_historical_aqi WAQI_API_TOKEN upstream).

Lemma history_feed_raises (city : string) (s : state) (ex : exn) :
  upstream (feed city) = Raise ex ->
  history city s = (Raise ex, mkState (page s) (sent s ++ [feed city])).
Proof.
  intros Hup. unfold get_historical_aqi.
  apply (bind_request_raise _ _ _ _ _ Hup).
Qed.

Lemma history_not_ok (city : string) (s : state) (response status : pyval) :
  upstream (feed city) = Ok response ->
  field "status" response = Some status ->
  status <> VStr "ok" ->
  history city s
  = (Ok (VNone, []),
     mkState (page s ++ [StError [Lit "Failed to fetch historical AQI data."]])
       (sent s ++ [feed city])).
Proof.
  intros Hup Hstatus Hne. unfold get_historical_aqi.
  rewrite (bind_request _ _ _ _ _ Hup).
  rewrite (bind_lift_ok _ _ _ _ (field_getitem _ _ _ Hstatus)).
  rewrite (eq_str_false _ _ Hne). reflexivity.
Qed.

Lemma history_ok (city : string) (s : state) (response current : pyval)
  (entries : list pyval) (rows : list row) :
  upstream (feed city) = Ok response ->
  field "status" response = Some (VStr "ok") ->
  path ["data"; "aqi"] response = Some current ->
  path ["data"; "forecast"; "daily"; "pm25"] response = Some (VList entries) ->
  map aqi_sample entries = map Some rows ->
  history city s
  = (Ok (current, rows), mkState (page s) (sent s ++ [feed city])).
Proof.
  intros Hup Hstatus Haqi Hpm Hrows.
  apply path_cons in Haqi as (data & Hdata & Haqi).
  apply path_cons in Haqi as (cur & Hcur & Haqi). simpl in Haqi. injection Haqi as ->.
  apply path_cons in Hpm as (data' & Hdata' & Hpm).
  rewrite Hdata in Hdata'. injection Hdata' as <-.
  apply path_cons in Hpm as (forecast & Hforecast & Hpm).
  apply path_cons in Hpm as (daily & Hdaily & Hpm).
  apply path_cons in Hpm as (pm & Hpm25 & Hpm). simpl in Hpm. injection Hpm as ->.
  unfold get_historical_aqi.
  rewrite (bind_request _ _ _ _ _ Hup).
  rewrite (bind_lift_ok _ _ _ _ (field_getitem _ _ _ Hstatus)).
  change (Py.eq_str (VStr "ok") "ok") with true. cbv iota.
  rewrite (bind_lift_ok _ _ _ _ (field_getitem _ _ _ Hdata)).
  rewrite (bind_lift_ok _ _ _ _ (field_getitem _ _ _ Hcur)).
  rewrite (bind_lift_ok _ _ _ _ (field_getitem _ _ _ Hdata)).
  rewrite (bind_lift_ok _ _ _ _ (field_getitem _ _ _ Hforecast)).
  rewrite (bind_lift_ok _ _ _ _ (field_getitem _ _ _ Hdaily)).
  rewrite (bind_lift_ok _ _ _ _ (field_getitem _ _ _ Hpm25)).
  rewrite (bind_lift_ok (Py.iter (VList entries)) entries _ _ eq_refl).
  rewrite (bind_lift_ok _ _ _ _ (append_samples_rows entries rows [] Hrows)).
  reflexivity.
Qed.

(** C4, as amended: a feed response whose status field is present and
    not "ok" makes [get_historical_aqi] return [None] and the empty frame
    (and show its message); a response whose status is "ok" and which
    carries [data.aqi] and a [data.forecast.daily.pm25] list whose entries
    each carry [day] and [avg] makes it return the current AQI and one
    row per entry, built from the entry's [day] and [avg], in the order
    of the upstream list. *)
Theorem history_by_status (city : string) (s : state) (response : pyval) :
  upstream (feed city) = Ok response ->
  (forall status,
      field "status" response = Some status ->
      status <> VStr "ok" ->
      history city s
      = (Ok (VNone, []),
         mkState (page s ++ [StError [Lit "Failed to fetch historical AQI data."]])
           (sent s ++ [feed city]))) /\
  (forall current entries rows,
      field "status" response = Some (VStr "ok") ->
      path ["data"; "aqi"] response = Some current ->
      path ["data"; "forecast"; "daily"; "pm25"] response = Some (VList entries) ->
      map aqi_sample entries = map Some rows ->
      history city s
      = (Ok (current, rows), mkState (page s) (sent s ++ [feed city]))
      /\ List.length rows = List.length entries).
Proof.
  intros Hup. split.
  - intros status Hstatus Hne.
    exact (history_not_ok city s response status Hup Hstatus Hne).
  - intros current entries rows Hstatus Haqi Hpm Hrows. split.
    + exact (history_ok city s response current entries rows
               Hup Hstatus Haqi Hpm Hrows).
    + apply (f_equal (@List.length _)) in Hrows.
      rewrite !length_map in Hrows. symmetry. exact Hrows.
Qed.

(** C9: beyond the status check the response shape is assumed.  A
    response object without [status], or with status "ok" but without
    [data], or without [aqi] or any link of [forecast], [daily], [pm25]
    under it, makes [get_historical_aqi] raise a [KeyError]; nothing is
    shown and nothing is returned. *)
Theorem history_lookup_errors (city : string) (s : state) (response : pyval) :
  upstream (feed city) = Ok response ->
  (missing "status" response ->
   history city s
   = (Raise (KeyError (VStr "status")),
      mkState (page s) (sent s ++ [feed city]))) /\
  (field "status" response = Some (VStr "ok") ->
   forall keys key holder,
     In (keys, key)
        [([], "data"); (["data"], "aqi"); (["data"], "forecast");
         (["data"; "forecast"], "daily");
         (["data"; "forecast"; "daily"], "pm25")] ->
     path keys response = Some holder ->
     missing key holder ->
     exists key',
       history city s
       = (Raise (KeyError (VStr key')),
          mkState (page s) (sent s ++ [feed city]))).
Proof.
  intros Hup. split.
  - intros Hmiss. unfold get_historical_aqi.
    rewrite (bind_request _ _ _ _ _ Hup).
    apply bind_lift_raise. apply missing_getitem. exact Hmiss.
  - intros Hstatus keys key holder Hin Hpath Hmiss.
    unfold get_historical_aqi.
    rewrite (bind_request _ _ _ _ _ Hup).
    rewrite (bind_lift_ok _ _ _ _ (field_getitem _ _ _ Hstatus)).
    change (Py.eq_str (VStr "ok") "ok") with true. cbv iota.
    simpl in Hin.
    destruct Hin as [Hin|[Hin|[Hin|[Hin|[Hin|[]]]]]];
      injection Hin as <- <-.
    + (* data *)
      simpl in Hpath. injection Hpath as <-.
      exists "data". apply bind_lift_raise. apply missing_getitem. exact Hmiss.
    + (* data.aqi *)
      apply path_cons in Hpath as (data & Hdata & Hpath).
      simpl in Hpath. injection Hpath as <-.
      rewrite (bind_lift_ok _ _ _ _ (field_getitem _ _ _ Hdata)).
      exists "aqi". apply bind_lift_raise. apply missing_getitem. exact Hmiss.
    + (* data.forecast *)
      apply path_cons in Hpath as (data & Hdata & Hpath).
      simpl in Hpath. injection Hpath as <-.
      rewrite (bind_lift_ok _ _ _ _ (field_getitem _ _ _ Hdata)).
      destruct (missing_object "forecast" "aqi" data Hmiss) as [(y & Hy)|Hy].
      * rewrite (bind_lift_ok _ _ _ _ Hy).
        rewrite (bind_lift_ok _ _ _ _ (field_getitem _ _ _ Hdata)).
        exists "forecast". apply bind_lift_raise. apply missing_getitem.
        exact Hmiss.
      * exists "aqi". apply bind_lift_raise. exact Hy.
    + (* data.forecast.daily *)
      apply path_cons in Hpath as (data & Hdata & Hpath).
      apply path_cons in Hpath as (forecast & Hforecast & Hpath).
      simpl in Hpath. injection Hpath as <-.
      rewrite (bind_lift_ok _ _ _ _ (field_getitem _ _ _ Hdata)).
      destruct (getitem_object "forecast" "aqi" data _ Hforecast) as [(y & Hy)|Hy].
      * rewrite (bind_lift_ok _ _ _ _ Hy).
        rewrite (bind_lift_ok _ _ _ _ (field_getitem _ _ _ Hdata)).
        rewrite (bind_lift_ok _ _ _ _ (field_getitem _ _ _ Hforecast)).
        exists "daily". apply bind_lift_raise. apply missing_getitem.
        exact Hmiss.
      * exists "aqi". apply bind_lift_raise. exact Hy.
    + (* data.forecast.daily.pm25 *)
      apply path_cons in Hpath as (data & Hdata & Hpath).
      apply path_cons in Hpath as (forecast & Hforecast & Hpath).
      apply path_cons in Hpath as (daily & Hdaily & Hpath).
      simpl in Hpath. injection Hpath as <-.
      rewrite (bind_lift_ok _ _ _ _ (field_getitem _ _ _ Hdata)).
      destruct (getitem_object "forecast" "aqi" data _ Hforecast) as [(y & Hy)|Hy].
      * rewrite (bind_lift_ok _ _ _ _ Hy).
        rewrite (bind_lift_ok _ _ _ _ (field_getitem _ _ _ Hdata)).
        rewrite (bind_lift_ok _ _ _ _ (field_getitem _ _ _ Hforecast)).
        rewrite (bind_lift_ok _ _ _ _ (field_getitem _ _ _ Hdaily)).
        exists "pm25". apply bind_lift_raise. apply missing_getitem.
        exact Hmiss.
      * exists "aqi". apply bind_lift_raise. exact Hy.
Qed.

End History.

(** End-to-end scenario C of the specification, and a three-day forecast. *)
Lemma history_by_status_witness :
  get_historical_aqi (VStr "token")
    (fun _ => Ok (sample_feed "error" (VStr "Unknown station")))
    "Delhi" empty_state
  = (Ok (VNone, []),
     mkState [StError [Lit "Failed to fetch historical AQI data."]]
       [feed_request (VStr "token") "Delhi"]) /\
  fst (get_historical_aqi (VStr "token")
         (fun _ => Ok (sample_feed "ok" sample_forecast))
         "Delhi" empty_state)
  = Ok (VInt 152,
        [mkRow (VStr "2024-10-01") (VInt 140);
         mkRow (VStr "2024-10-02") (VInt 155);
         mkRow (VStr "2024-10-03") (VInt 131)]).
Proof.
  split.
  - refine (proj1
              (history_by_status (VStr "token")
                 (fun _ => Ok (sample_feed "error" (VStr "Unknown station")))
                 "Delhi" empty_state
                 (sample_feed "error" (VStr "Unknown station")) eq_refl)
              (VStr "error") eq_refl _).
    discriminate.
  - exact (f_equal fst
             (proj1
                (proj2
                   (history_by_status (VStr "token")
                      (fun _ => Ok (sample_feed "ok" sample_forecast))
                      "Delhi" empty_state (sample_feed "ok" sample_forecast)
                      eq_refl)
                   (VInt 152)
                   [sample_entry "2024-10-01" 140; sample_entry "2024-10-02" 155;
                    sample_entry "2024-10-03" 131]
                   [mkRow (VStr "2024-10-01") (VInt 140);
                    mkRow (VStr "2024-10-02") (VInt 155);
                    mkRow (VStr "2024-10-03") (VInt 131)]
                   eq_refl eq_refl eq_refl eq_refl))).
Defined.

(** C4, as stated, fails: a response whose status is "ok" and which
    carries the current AQI but no [forecast] makes [get_historical_aqi]
    raise [KeyError] at line 98; it returns no sample at all. *)
Lemma history_ok_without_forecast :
  field "status" (sample_feed "ok" (VDict [("aqi", VInt 152)]))
  = Some (VStr "ok") /\
  get_historical_aqi (VStr "token")
    (fun _ => Ok (sample_feed "ok" (VDict [("aqi", VInt 152)])))
    "Delhi" empty_state
  = (Raise (KeyError (VStr "forecast")),
     mkState [] [feed_request (VStr "token") "Delhi"]).
Proof. split; reflexivity. Qed.

Lemma history_lookup_errors_witness :
  missing "forecast" (VDict [("aqi", VInt 152)]) /\
  exists key',
    get_historical_aqi (VStr "token")
      (fun _ => Ok (sample_feed "ok" (VDict [("aqi", VInt 152)])))
      "Delhi" empty_state
    = (Raise (KeyError (VStr key')),
       mkState [] [feed_request (VStr "token") "Delhi"]).
Proof.
  split; [reflexivity|].
  exact (proj2
           (history_lookup_errors (VStr "token")
              (fun _ => Ok (sample_feed "ok" (VDict [("aqi", VInt 152)])))
              "Delhi" empty_state
              (sample_feed "ok" (VDict [("aqi", VInt 152)])) eq_refl)
           eq_refl ["data"] "forecast" (VDict [("aqi", VInt 152)])
           (or_intror (or_intror (or_introl eq_refl))) eq_refl eq_refl).
Defined.

(** C7: on a history of 16 rows, [df.iloc[-7:]] is the rows after the
    first nine: the final seven, in their original order. *)
Theorem last_7_days_of_16 (df : dataframe) :
  List.length df = 16%nat ->
  last_7_days df = skipn 9 df /\
  List.length (last_7_days df) = 7%nat /\
  df = firstn 9 df ++ last_7_days df.
Proof.
  intros Hlen.
  assert (Hlast : last_7_days df = skipn 9 df).
  { unfold last_7_days, slice_from. rewrite Hlen. reflexivity. }
  rewrite Hlast. split; [reflexivity|]. split.
  - rewrite length_skipn, Hlen. reflexivity.
  - symmetry. apply firstn_skipn.
Qed.

Lemma last_7_days_of_16_witness :
  List.length sample_frame = 16%nat /\
  last_7_days sample_frame = map sample_row [10; 11; 12; 13; 14; 15; 16].
Proof.
  split; [reflexivity|].
  rewrite (proj1 (last_7_days_of_16 sample_frame eq_refl)). reflexivity.
Defined.

Lemma bind_run {A B} (m : M A) (a : A) (k : A -> M B) (s s' : state) :
  m s = (Ok a, s') -> bind m k s = k a s'.
Proof. intros H. unfold bind. rewrite H. reflexivity. Qed.

Lemma is_none_false (v : pyval) : v <> VNone -> Py.is_none v = false.
Proof. destruct v; intros H; try reflexivity. contradiction H. reflexivity. Qed.

Section Page.

Variables OPENWEATHERMAP_API_KEY OPENROUTESERVICE_API_KEY WAQI_API_TOKEN
  : pyval.
Variable upstream : request -> result pyval.
Variable pd_to_datetime : list pyval -> result (list pyval).

Local Notation pollution := (get_pollution_data OPENWEATHERMAP_API_KEY upstream).
Local Notation traffic := (get_traffic_data OPENROUTESERVICE_API_KEY upstream).
Local Notation history := (get_historical_aqi WAQI_API_TOKEN upstream).
Local Notation page_script :=
  (render OPENWEATHERMAP_API_KEY OPENROUTESERVICE_API_KEY WAQI_API_TOKEN
     upstream pd_to_datetime).

(** C8: an exception raised by an outbound request leaves
    [get_pollution_data] (from either of its two requests) and
    [get_historical_aqi] as that exception, with no message and no
    result; only [get_traffic_data] catches it, shows a message and
    returns [None]. *)
Theorem transport_failure_containment (city : string) (s : state)
  (detail : string) :
  (upstream (weather_request OPENWEATHERMAP_API_KEY city)
   = Raise (RequestException detail) ->
   pollution city s
   = (Raise (RequestException detail),
      mkState (page s)
        (sent s ++ [weather_request OPENWEATHERMAP_API_KEY city]))) /\
  (forall r1 lat lon,
      upstream (weather_request OPENWEATHERMAP_API_KEY city) = Ok r1 ->
      path ["coord"; "lat"] r1 = Some lat ->
      path ["coord"; "lon"] r1 = Some lon ->
      upstream (air_pollution_request OPENWEATHERMAP_API_KEY lat lon)
      = Raise (RequestException detail) ->
      pollution city s
      = (Raise (RequestException detail),
         mkState (page s)
           (sent s ++ [weather_request OPENWEATHERMAP_API_KEY city;
                       air_pollution_request OPENWEATHERMAP_API_KEY lat lon]))) /\
  (upstream (feed_request WAQI_API_TOKEN city) = Raise (RequestException detail) ->
   history city s
   = (Raise (RequestException detail),
      mkState (page s) (sent s ++ [feed_request WAQI_API_TOKEN city]))) /\
  (forall lat lon : float,
      upstream
        (directions_request OPENROUTESERVICE_API_KEY
           [Fmt (VFloat lon); Lit ","; Fmt (VFloat lat)]
           [Fmt (VFloat (lon + 0.01)%float); Lit ",";
            Fmt (VFloat (lat + 0.01)%float)])
      = Raise (RequestException detail) ->
      fst (traffic (VFloat lat) (VFloat lon) s) = Ok VNone).
Proof.
  split; [|split; [|split]].
  - apply pollution_weather_raises.
  - intros r1 lat lon. apply pollution_air_raises.
  - apply history_feed_raises.
  - intros lat lon Hup.
    rewrite (traffic_request_raises _ _ lat lon s _ Hup). reflexivity.
Qed.

(** C10: when [get_historical_aqi] returned [None] for the current AQI
    and [get_pollution_data] returned a pollutant mapping with both
    coordinates present, the page script reaches [current_aqi > 100];
    comparing [None] with 100 raises [TypeError], which nothing catches:
    the render ends with that exception. *)
Theorem render_aborts_on_absent_aqi (city : string) (s s1 s2 : state)
  (df : dataframe) (components : list (string * pyval)) (lat lon : pyval) :
  history city s = (Ok (VNone, df), s1) ->
  pollution city s1 = (Ok (VDict components, lat, lon), s2) ->
  lat <> VNone ->
  lon <> VNone ->
  (df = [] \/ exists column, pd_to_datetime (map timestamp df) = Ok column) ->
  Py.gt_int VNone 100 = Raise TypeError /\
  fst (page_script city s) = Raise TypeError.
Proof.
  intros Hhist Hpoll Hlat Hlon Hdf.
  split; [reflexivity|].
  unfold render.
  rewrite (bind_run _ _ _ _ _ Hhist). cbv beta iota.
  rewrite (bind_run _ _ _ _ _ Hpoll). cbv beta iota.
  unfold sidebar_statistics, sidebar_trend, to_datetime_column, main_content.
  unfold bind, lift, ret, show, st_error.
  cbn [Py.is_none negb].
  rewrite (is_none_false _ Hlat), (is_none_false _ Hlon).
  cbn [negb andb].
  destruct components as [|binding components];
    cbn [Py.truthy Py.dict_get_default].
  - destruct Hdf as [->|(column & Hcol)].
    + reflexivity.
    + destruct df as [|r df]; [reflexivity|].
      cbn [df_empty negb]. rewrite Hcol. reflexivity.
  - destruct Hdf as [->|(column & Hcol)].
    + reflexivity.
    + destruct df as [|r df]; [reflexivity|].
      cbn [df_empty negb]. rewrite Hcol. reflexivity.
Qed.

End Page.

Lemma transport_failure_containment_witness :
  fst (get_pollution_data (VStr "key")
         (fun _ => Raise (RequestException "timeout")) "Delhi" empty_state)
  = Raise (RequestException "timeout") /\
  fst (get_pollution_data (VStr "key")
         (openweathermap (Ok (sample_weather (VFloat 28.6) (VFloat 77.2)))
            (Raise (RequestException "timeout")))
         "Delhi" empty_state)
  = Raise (RequestException "timeout") /\
  fst (get_historical_aqi (VStr "token")
         (fun _ => Raise (RequestException "timeout")) "Delhi" empty_state)
  = Raise (RequestException "timeout") /\
  fst (get_traffic_data (VStr "key")
         (fun _ => Raise (RequestException "timeout"))
         (VFloat 28.6) (VFloat 77.2) empty_state)
  = Ok VNone.
Proof.
  pose proof
    (transport_failure_containment (VStr "key") (VStr "key") (VStr "token")
       (fun _ => Raise (RequestException "timeout")) "Delhi" empty_state
       "timeout") as (Hweather & _ & Hfeed & Hroute).
  pose proof
    (transport_failure_containment (VStr "key") (VStr "key") (VStr "token")
       (openweathermap (Ok (sample_weather (VFloat 28.6) (VFloat 77.2)))
          (Raise (RequestException "timeout")))
       "Delhi" empty_state "timeout") as (_ & Hair & _ & _).
  split; [|split; [|split]].
  - rewrite (Hweather eq_refl). reflexivity.
  - rewrite (Hair (sample_weather (VFloat 28.6) (VFloat 77.2))
               (VFloat 28.6) (VFloat 77.2) eq_refl eq_refl eq_refl eq_refl).
    reflexivity.
  - rewrite (Hfeed eq_refl). reflexivity.
  - exact (Hroute 28.6%float 77.2%float eq_refl).
Defined.

Lemma render_aborts_on_absent_aqi_witness :
  fst (get_historical_aqi (VStr "token")
         (dashboard (Ok (sample_weather (VFloat 28.6) (VFloat 77.2)))
            (Ok (sample_pollution sample_components))
            (Ok (sample_feed "error" (VStr "Unknown station")))
            (Ok (sample_route (VFloat 120) (VFloat 1000))))
         "Delhi" empty_state)
  = Ok (VNone, []) /\
  fst (render (VStr "key") (VStr "key") (VStr "token")
         (dashboard (Ok (sample_weather (VFloat 28.6) (VFloat 77.2)))
            (Ok (sample_pollution sample_components))
            (Ok (sample_feed "error" (VStr "Unknown station")))
            (Ok (sample_route (VFloat 120) (VFloat 1000))))
         (fun column => Ok column) "Delhi" empty_state)
  = Raise TypeError.
Proof.
  split; [reflexivity|].
  eapply proj2.
  eapply (render_aborts_on_absent_aqi (VStr "key") (VStr "key") (VStr "token")
            _ _ "Delhi" empty_state _ _ [] _ (VFloat 28.6) (VFloat 77.2)).
  - reflexivity.
  - reflexivity.
  - discriminate.
  - discriminate.
  - left. reflexivity.
Defined.

(** The offset of line 53 is computed before the [try] of line 62: an
    origin whose coordinates are not numbers never reaches the request. *)
Lemma traffic_origin_not_numeric :
  get_traffic_data (VStr "key") (fun _ => Ok (VDict []))
    (VStr "28.6") (VStr "77.2") empty_state
  = (Raise TypeError, empty_state).
Proof. reflexivity. Qed.

(** ** Further properties of the code *)

(** *** The trend window (line 177) *)

Lemma slice_from_neg_skipn {A} (k : nat) (l : list A) :
  (0 < k)%nat ->
  slice_from (- Z.of_nat k) l = skipn (List.length l - k) l.
Proof.
  intros Hk. unfold slice_from.
  assert (Hneg : (- Z.of_nat k <? 0) = true) by (apply Z.ltb_lt; lia).
  rewrite Hneg. f_equal. lia.
Qed.

(** Whatever the number of rows, [df.iloc[-7:]] is a suffix of the frame
    with [min 7 (len df)] rows; a frame of at most 7 rows is kept whole
    and an empty frame stays empty. *)
Theorem last_7_days_suffix (df : dataframe) :
  (exists front, df = front ++ last_7_days df) /\
  List.length (last_7_days df) = Nat.min 7 (List.length df) /\
  ((List.length df <= 7)%nat -> last_7_days df = df).
Proof.
  assert (H : last_7_days df = skipn (List.length df - 7) df).
  { unfold last_7_days. apply (slice_from_neg_skipn 7). lia. }
  rewrite H. split; [|split].
  - exists (firstn (List.length df - 7) df). symmetry. apply firstn_skipn.
  - rewrite length_skipn. lia.
  - intros Hle. replace (List.length df - 7)%nat with 0%nat by lia. reflexivity.
Qed.

(** *** [get_traffic_data] on any origin and any response *)

Lemma congestion_needs_nonzero (duration : pyval) (e c : float) :
  congestion_percentage duration e = Ok c -> (e =? 0)%float = false.
Proof.
  intros Hc. destruct (e =? 0)%float eqn:He; [|reflexivity].
  destruct (congestion_by_zero duration e He) as (ex & Hex & _).
  rewrite Hex in Hc. discriminate.
Qed.

Section TrafficAnyOrigin.

Variable OPENROUTESERVICE_API_KEY : pyval.
Variable upstream : request -> result pyval.

Local Notation traffic := (get_traffic_data OPENROUTESERVICE_API_KEY upstream).
Local Notation route lat lon lat_end lon_end :=
  (directions_request OPENROUTESERVICE_API_KEY
     [Fmt lon; Lit ","; Fmt lat] [Fmt lon_end; Lit ","; Fmt lat_end]).

Lemma traffic_offset_raises (lat lon : pyval) (s : state) (ex : exn) :
  Py.add lon (VFloat 0.01) = Raise ex \/
  (exists lon_end, Py.add lon (VFloat 0.01) = Ok lon_end /\
                   Py.add lat (VFloat 0.01) = Raise ex) ->
  traffic lat lon s = (Raise ex, s).
Proof.
  unfold get_traffic_data.
  intros [Hlon|(lon_end & Hlon & Hlat)].
  - apply (bind_lift_raise _ _ _ _ Hlon).
  - rewrite (bind_lift_ok _ _ _ _ Hlon). apply (bind_lift_raise _ _ _ _ Hlat).
Qed.

Lemma traffic_outcome (lat lon lat_end lon_end : pyval) (s : state) :
  Py.add lon (VFloat 0.01) = Ok lon_end ->
  Py.add lat (VFloat 0.01) = Ok lat_end ->
  let sent' := sent s ++ [route lat lon lat_end lon_end] in
  traffic lat lon s
  = (Ok VNone,
     mkState (page s ++ [StError [Lit "No route found in the API response."]])
       sent') \/
  (exists ex,
      traffic lat lon s
      = (Ok VNone,
         mkState
           (page s ++ [StError [Lit "Failed to retrieve traffic data: "; FmtExn ex]])
           sent')) \/
  (exists duration distance e c,
      expected_duration distance = Ok e /\
      congestion_percentage duration e = Ok c /\
      traffic lat lon s
      = (Ok (traffic_estimate duration distance e c), mkState (page s) sent')).
Proof.
  intros Hlon Hlat sent'. subst sent'. unfold get_traffic_data.
  rewrite (bind_lift_ok _ _ _ _ Hlon), (bind_lift_ok _ _ _ _ Hlat).
  unfold present_and_truthy.
  unfold try_except, bind, requests_get_json, lift, ret, st_error, show.
  cbn [page sent].
  destruct (upstream _) as [response|ex]; [|right; left; exists ex; reflexivity].
  destruct (Py.contains "features" response) as [[|]|ex];
    [|left; reflexivity|right; left; exists ex; reflexivity].
  destruct (Py.getitem response "features") as [features|ex];
    [|right; left; exists ex; reflexivity].
  destruct (Py.truthy features); [|left; reflexivity].
  destruct (Py.getitem0 features) as [first|ex];
    [|right; left; exists ex; reflexivity].
  destruct (Py.getitem first "properties") as [properties|ex];
    [|right; left; exists ex; reflexivity].
  destruct (Py.getitem properties "summary") as [summary|ex];
    [|right; left; exists ex; reflexivity].
  destruct (Py.getitem summary "duration") as [duration|ex];
    [|right; left; exists ex; reflexivity].
  destruct (Py.getitem summary "distance") as [distance|ex];
    [|right; left; exists ex; reflexivity].
  destruct (expected_duration distance) as [e|ex] eqn:He;
    [|right; left; exists ex; reflexivity].
  destruct (congestion_percentage duration e) as [c|ex] eqn:Hc;
    [|right; left; exists ex; reflexivity].
  right; right. exists duration, distance, e, c. auto.
Qed.

End TrafficAnyOrigin.

Section TrafficInvariants.

Variable OPENROUTESERVICE_API_KEY : pyval.
Variable upstream : request -> result pyval.

Local Notation traffic := (get_traffic_data OPENROUTESERVICE_API_KEY upstream).

(** [get_traffic_data] raises exactly when the offset of line 53 cannot be
    computed from the origin, with the exception of that addition; it has
    then sent no request and shown nothing.  When the offset is computed
    the function returns, having sent one request: from the origin to the
    offset origin. *)
Theorem traffic_raises_iff_offset_fails (lat lon : pyval) (s : state) :
  (forall ex,
      fst (traffic lat lon s) = Raise ex <->
      (Py.add lon (VFloat 0.01) = Raise ex \/
       exists lon_end,
         Py.add lon (VFloat 0.01) = Ok lon_end /\
         Py.add lat (VFloat 0.01) = Raise ex)) /\
  (forall ex, fst (traffic lat lon s) = Raise ex -> snd (traffic lat lon s) = s) /\
  (forall lon_end lat_end,
      Py.add lon (VFloat 0.01) = Ok lon_end ->
      Py.add lat (VFloat 0.01) = Ok lat_end ->
      (exists v, fst (traffic lat lon s) = Ok v) /\
      sent (snd (traffic lat lon s))
      = sent s ++
        [directions_request OPENROUTESERVICE_API_KEY
           [Fmt lon; Lit ","; Fmt lat] [Fmt lon_end; Lit ","; Fmt lat_end]]).
Proof.
  assert (Hok : forall lon_end lat_end,
             Py.add lon (VFloat 0.01) = Ok lon_end ->
             Py.add lat (VFloat 0.01) = Ok lat_end ->
             (exists v, fst (traffic lat lon s) = Ok v) /\
             sent (snd (traffic lat lon s))
             = sent s ++
               [directions_request OPENROUTESERVICE_API_KEY
                  [Fmt lon; Lit ","; Fmt lat] [Fmt lon_end; Lit ","; Fmt lat_end]]).
  { intros lon_end lat_end Hlon Hlat.
    destruct (traffic_outcome OPENROUTESERVICE_API_KEY upstream
                lat lon lat_end lon_end s Hlon Hlat)
      as [H|[(ex & H)|(du & di & e & c & _ & _ & H)]];
      rewrite H; split; try reflexivity; eexists; reflexivity. }
  assert (Hraise : forall ex,
             fst (traffic lat lon s) = Raise ex ->
             Py.add lon (VFloat 0.01) = Raise ex \/
             exists lon_end,
               Py.add lon (VFloat 0.01) = Ok lon_end /\
               Py.add lat (VFloat 0.01) = Raise ex).
  { intros ex Hex.
    destruct (Py.add lon (VFloat 0.01)) as [lon_end|e1] eqn:Hlon.
    - destruct (Py.add lat (VFloat 0.01)) as [lat_end|e2] eqn:Hlat.
      + destruct (Hok lon_end lat_end eq_refl eq_refl) as ((v & Hv) & _).
        rewrite Hv in Hex. discriminate.
      + rewrite (traffic_offset_raises OPENROUTESERVICE_API_KEY upstream
                   lat lon s e2) in Hex
          by (right; exists lon_end; split; assumption).
        injection Hex as ->. right. exists lon_end. split; reflexivity.
    - rewrite (traffic_offset_raises OPENROUTESERVICE_API_KEY upstream
                 lat lon s e1) in Hex by (left; assumption).
      injection Hex as ->. left. reflexivity. }
  split; [|split].
  - intros ex. split; [apply Hraise|].
    intros H.
    rewrite (traffic_offset_raises OPENROUTESERVICE_API_KEY upstream
               lat lon s ex H).
    reflexivity.
  - intros ex Hex. apply Hraise in Hex.
    rewrite (traffic_offset_raises OPENROUTESERVICE_API_KEY upstream
               lat lon s ex Hex).
    reflexivity.
  - exact Hok.
Qed.

(** Whatever the origin and the response, a value that [get_traffic_data]
    returns is either [None], and then exactly one error message has been
    added to the page, or the four-field record, and then nothing has been
    shown, its expected duration is not zero and its two derived fields
    are what lines 73 and 75 compute from its distance and duration. *)
Theorem traffic_result_invariant (lat lon : pyval) (s : state) (v : pyval) :
  fst (traffic lat lon s) = Ok v ->
  (v = VNone /\
   exists msg, page (snd (traffic lat lon s)) = page s ++ [StError msg]) \/
  (exists duration distance e c,
      v = traffic_estimate duration distance e c /\
      expected_duration distance = Ok e /\
      (e =? 0)%float = false /\
      congestion_percentage duration e = Ok c /\
      page (snd (traffic lat lon s)) = page s).
Proof.
  intros Hv.
  destruct (Py.add lon (VFloat 0.01)) as [lon_end|e1] eqn:Hlon.
  2:{ rewrite (traffic_offset_raises OPENROUTESERVICE_API_KEY upstream
                 lat lon s e1) in Hv by (left; assumption).
      discriminate. }
  destruct (Py.add lat (VFloat 0.01)) as [lat_end|e2] eqn:Hlat.
  2:{ rewrite (traffic_offset_raises OPENROUTESERVICE_API_KEY upstream
                 lat lon s e2) in Hv
        by (right; exists lon_end; split; assumption).
      discriminate. }
  destruct (traffic_outcome OPENROUTESERVICE_API_KEY upstream
              lat lon lat_end lon_end s Hlon Hlat)
    as [H|[(ex & H)|(du & di & e & c & He & Hc & H)]];
    rewrite H in Hv |- *; cbn [fst snd page] in *; injection Hv as <-.
  - left. split; [reflexivity|]. eexists. reflexivity.
  - left. split; [reflexivity|]. eexists. reflexivity.
  - right. exists du, di, e, c.
    repeat split; try assumption.
    exact (congestion_needs_nonzero du e c Hc).
Qed.

End TrafficInvariants.

Lemma traffic_result_invariant_witness :
  fst (get_traffic_data (VStr "key")
         (fun _ => Ok (sample_route (VInt 100) (VInt 1500)))
         (VInt 28) (VFloat 77.2) empty_state)
  = Ok (traffic_estimate (VInt 100) (VInt 1500) 108 ((100 - 108) / 108 * 100)%float)
  /\
  ((traffic_estimate (VInt 100) (VInt 1500) 108 ((100 - 108) / 108 * 100)%float
    = VNone /\
    exists msg,
      page (snd (get_traffic_data (VStr "key")
                   (fun _ => Ok (sample_route (VInt 100) (VInt 1500)))
                   (VInt 28) (VFloat 77.2) empty_state))
      = page empty_state ++ [StError msg]) \/
   (exists duration distance e c,
       traffic_estimate (VInt 100) (VInt 1500) 108 ((100 - 108) / 108 * 100)%float
       = traffic_estimate duration distance e c /\
       expected_duration distance = Ok e /\
       (e =? 0)%float = false /\
       congestion_percentage duration e = Ok c /\
       page (snd (get_traffic_data (VStr "key")
                    (fun _ => Ok (sample_route (VInt 100) (VInt 1500)))
                    (VInt 28) (VFloat 77.2) empty_state))
       = page empty_state)).
Proof.
  split; [vm_compute; reflexivity|].
  apply (traffic_result_invariant (VStr "key")
           (fun _ => Ok (sample_route (VInt 100) (VInt 1500)))
           (VInt 28) (VFloat 77.2) empty_state).
  vm_compute. reflexivity.
Defined.

(** *** What [get_pollution_data] sends and shows *)

Section PollutionEffects.

Variable OPENWEATHERMAP_API_KEY : pyval.
Variable upstream : request -> result pyval.

Local Notation weather city := (weather_request OPENWEATHERMAP_API_KEY city).
Local Notation air lat lon :=
  (air_pollution_request OPENWEATHERMAP_API_KEY lat lon).
Local Notation pollution := (get_pollution_data OPENWEATHERMAP_API_KEY upstream).

Ltac pollution_sent_two r1 lat lon Hcoord Hlat Hlon :=
  cbn [fst snd page sent];
  split;
  [ right; exists r1, lat, lon;
    split; [reflexivity|];
    split; [exact (path_step _ _ _ _ _ Hcoord (path_field _ _ _ Hlat))|];
    split; [exact (path_step _ _ _ _ _ Hcoord (path_field _ _ _ Hlon))|];
    rewrite <- app_assoc; reflexivity
  | first
      [ left; reflexivity
      | right; right;
        split; [reflexivity|];
        split; [exists lat, lon; rewrite <- app_assoc; reflexivity|];
        reflexivity ] ].

(** Whatever the two responses (or exceptions), [get_pollution_data] sends
    the weather request first and at most one more request, the pollution
    request for exactly the [lat] and [lon] found under [coord]; and it
    shows at most one message, one of its two error messages, and only
    when it returns all three outputs as [None]: it shows nothing when it
    raises or returns data. *)
Theorem pollution_requests_and_messages (city : string) (s : state) :
  (sent (snd (pollution city s)) = sent s ++ [weather city] \/
   exists r1 lat lon,
     upstream (weather city) = Ok r1 /\
     path ["coord"; "lat"] r1 = Some lat /\
     path ["coord"; "lon"] r1 = Some lon /\
     sent (snd (pollution city s)) = sent s ++ [weather city; air lat lon]) /\
  (page (snd (pollution city s)) = page s \/
   (fst (pollution city s) = Ok (VNone, VNone, VNone) /\
    sent (snd (pollution city s)) = sent s ++ [weather city] /\
    page (snd (pollution city s))
    = page s ++ [StError [Lit "City not found or invalid API key."]]) \/
   (fst (pollution city s) = Ok (VNone, VNone, VNone) /\
    (exists lat lon,
        sent (snd (pollution city s)) = sent s ++ [weather city; air lat lon]) /\
    page (snd (pollution city s))
    = page s ++
      [StError [Lit "Pollution data not available for the selected city."]])).
Proof.
  unfold get_pollution_data, present_and_truthy.
  unfold bind, requests_get_json, lift, ret, st_error, show.
  destruct (upstream (weather city)) as [r1|ex] eqn:Hup;
    [|split; left; reflexivity].
  destruct (Py.contains "coord" r1) as [[|]|ex] eqn:Hhas;
    [|split; [left; reflexivity|right; left; repeat split]
     |split; left; reflexivity].
  destruct (Py.getitem r1 "coord") as [coord|ex] eqn:Hcoord;
    [|split; left; reflexivity].
  destruct (Py.getitem coord "lat") as [lat|ex] eqn:Hlat;
    [|split; left; reflexivity].
  destruct (Py.getitem coord "lon") as [lon|ex] eqn:Hlon;
    [|split; left; reflexivity].
  apply getitem_field in Hcoord, Hlat, Hlon.
  cbn [page sent].
  destruct (upstream (air lat lon)) as [r2|ex];
    [|pollution_sent_two r1 lat lon Hcoord Hlat Hlon].
  destruct (Py.contains "list" r2) as [[|]|ex];
    [| |pollution_sent_two r1 lat lon Hcoord Hlat Hlon].
  - destruct (Py.getitem r2 "list") as [l|ex];
      [|pollution_sent_two r1 lat lon Hcoord Hlat Hlon].
    destruct (Py.truthy l).
    + destruct (Py.getitem0 l) as [first|ex];
        [|pollution_sent_two r1 lat lon Hcoord Hlat Hlon].
      destruct (Py.getitem first "components") as [c|ex];
        pollution_sent_two r1 lat lon Hcoord Hlat Hlon.
    + pollution_sent_two r1 lat lon Hcoord Hlat Hlon.
  - pollution_sent_two r1 lat lon Hcoord Hlat Hlon.
Qed.

End PollutionEffects.

(** *** The frame [get_historical_aqi] builds *)

Lemma append_samples_inv (entries : list pyval) :
  forall (acc out : list row),
    append_samples entries acc = Ok out ->
    exists rows, out = acc ++ rows /\ map aqi_sample entries = map Some rows.
Proof.
  induction entries as [|entry entries IH]; intros acc out Hout.
  - simpl in Hout. injection Hout as <-. exists []. split.
    + rewrite app_nil_r. reflexivity.
    + reflexivity.
  - cbn [append_samples] in Hout.
    destruct (Py.getitem entry "day") as [day|ex] eqn:Hday; [|discriminate].
    destruct (Py.getitem entry "avg") as [avg|ex] eqn:Havg; [|discriminate].
    cbn [and_then] in Hout.
    destruct (IH _ _ Hout) as (rows & -> & Hrows).
    exists (mkRow day avg :: rows). split.
    + rewrite <- app_assoc. reflexivity.
    + apply getitem_field in Hday, Havg.
      cbn [map]. unfold aqi_sample at 1. rewrite Hday, Havg, Hrows. reflexivity.
Qed.

Lemma append_samples_iff (entries : list pyval) (rows : list row) :
  append_samples entries [] = Ok rows <-> map aqi_sample entries = map Some rows.
Proof.
  split.
  - intros H. destruct (append_samples_inv entries [] rows H) as (rows' & -> & Hmap).
    exact Hmap.
  - intros H. exact (append_samples_rows entries rows [] H).
Qed.

Section HistoryRows.

Variable WAQI_API_TOKEN : pyval.
Variable upstream : request -> result pyval.

Local Notation feed city := (feed_request WAQI_API_TOKEN city).
Local Notation history := (get_historical_aqi WAQI_API_TOKEN upstream).

Lemma history_ok_loop (city : string) (s : state) (response current : pyval)
  (entries : list pyval) :
  upstream (feed city) = Ok response ->
  field "status" response = Some (VStr "ok") ->
  path ["data"; "aqi"] response = Some current ->
  path ["data"; "forecast"; "daily"; "pm25"] response = Some (VList entries) ->
  history city s
  = (match append_samples entries [] with
     | Ok rows => Ok (current, rows)
     | Raise ex => Raise ex
     end,
     mkState (page s) (sent s ++ [feed city])).
Proof.
  intros Hup Hstatus Haqi Hpm.
  apply path_cons in Haqi as (data & Hdata & Haqi).
  apply path_cons in Haqi as (cur & Hcur & Haqi). simpl in Haqi. injection Haqi as ->.
  apply path_cons in Hpm as (data' & Hdata' & Hpm).
  rewrite Hdata in Hdata'. injection Hdata' as <-.
  apply path_cons in Hpm as (forecast & Hforecast & Hpm).
  apply path_cons in Hpm as (daily & Hdaily & Hpm).
  apply path_cons in Hpm as (pm & Hpm25 & Hpm). simpl in Hpm. injection Hpm as ->.
  unfold get_historical_aqi.
  rewrite (bind_request _ _ _ _ _ Hup).
  rewrite (bind_lift_ok _ _ _ _ (field_getitem _ _ _ Hstatus)).
  change (Py.eq_str (VStr "ok") "ok") with true. cbv iota.
  rewrite (bind_lift_ok _ _ _ _ (field_getitem _ _ _ Hdata)).
  rewrite (bind_lift_ok _ _ _ _ (field_getitem _ _ _ Hcur)).
  rewrite (bind_lift_ok _ _ _ _ (field_getitem _ _ _ Hdata)).
  rewrite (bind_lift_ok _ _ _ _ (field_getitem _ _ _ Hforecast)).
  rewrite (bind_lift_ok _ _ _ _ (field_getitem _ _ _ Hdaily)).
  rewrite (bind_lift_ok _ _ _ _ (field_getitem _ _ _ Hpm25)).
  rewrite (bind_lift_ok (Py.iter (VList entries)) entries _ _ eq_refl).
  unfold bind, lift, ret.
  destruct (append_samples entries []); reflexivity.
Qed.

(** For a status-"ok" response with a current AQI and a list of forecast
    entries, [get_historical_aqi] returns a frame exactly when every entry
    carries [day] and [avg], and the frame then has one row per entry, in
    order: no entry is skipped.  If some entry lacks one of the two, the
    function raises, shows nothing and returns no partial frame. *)
Theorem history_frame_all_or_error (city : string) (s : state)
  (response current : pyval) (entries : list pyval) :
  upstream (feed city) = Ok response ->
  field "status" response = Some (VStr "ok") ->
  path ["data"; "aqi"] response = Some current ->
  path ["data"; "forecast"; "daily"; "pm25"] response = Some (VList entries) ->
  (forall rows,
      fst (history city s) = Ok (current, rows) <->
      map aqi_sample entries = map Some rows) /\
  (forall aqi_value rows,
      fst (history city s) = Ok (aqi_value, rows) ->
      aqi_value = current /\ List.length rows = List.length entries) /\
  ((exists entry, In entry entries /\ aqi_sample entry = None) ->
   exists ex,
     history city s = (Raise ex, mkState (page s) (sent s ++ [feed city]))).
Proof.
  intros Hup Hstatus Haqi Hpm.
  rewrite (history_ok_loop city s response current entries Hup Hstatus Haqi Hpm).
  cbn [fst].
  split; [|split].
  - intros rows. rewrite <- append_samples_iff.
    destruct (append_samples entries []) as [rows'|ex]; split; intros H.
    + injection H as ->. reflexivity.
    + injection H as ->. reflexivity.
    + discriminate.
    + discriminate.
  - intros aqi_value rows H.
    destruct (append_samples entries []) as [rows'|ex] eqn:Hloop; [|discriminate].
    injection H as <- <-. split; [reflexivity|].
    apply append_samples_iff in Hloop.
    apply (f_equal (@List.length _)) in Hloop.
    rewrite !length_map in Hloop. symmetry. exact Hloop.
  - intros (entry & Hin & Hnone).
    destruct (append_samples entries []) as [rows|ex] eqn:Hloop.
    + exfalso. apply append_samples_iff in Hloop.
      assert (Hsome : In (aqi_sample entry) (map Some rows)).
      { rewrite <- Hloop. apply in_map. exact Hin. }
      rewrite Hnone in Hsome. apply in_map_iff in Hsome as (r & Hr & _).
      discriminate.
    + exists ex. reflexivity.
Qed.

End HistoryRows.

(** A feed whose second forecast entry has no [avg]. *)
Definition sample_feed_missing_avg : pyval :=
  sample_feed "ok"
    (VDict [("aqi", VInt 152);
            ("forecast",
             VDict [("daily",
                     VDict [("pm25",
                             VList [sample_entry "2024-10-01" 140;
                                    VDict [("day", VStr "2024-10-02")]])])])]).

Lemma history_frame_all_or_error_witness :
  path ["data"; "forecast"; "daily"; "pm25"] sample_feed_missing_avg
  = Some (VList [sample_entry "2024-10-01" 140;
                 VDict [("day", VStr "2024-10-02")]]) /\
  exists ex,
    get_historical_aqi (VStr "token") (fun _ => Ok sample_feed_missing_avg)
      "Delhi" empty_state
    = (Raise ex, mkState [] [feed_request (VStr "token") "Delhi"]).
Proof.
  split; [reflexivity|].
  refine (proj2 (proj2
            (history_frame_all_or_error (VStr "token")
               (fun _ => Ok sample_feed_missing_avg) "Delhi" empty_state
               sample_feed_missing_avg (VInt 152)
               [sample_entry "2024-10-01" 140; VDict [("day", VStr "2024-10-02")]]
               eq_refl eq_refl eq_refl eq_refl)) _).
  exists (VDict [("day", VStr "2024-10-02")]). split.
  - right. left. reflexivity.
  - reflexivity.
Defined.

(** *** Computations that return

    [runs m reqs] says that [m] returns from every state, having shown
    some events and sent exactly the requests [reqs]; [runs_ending m ev
    reqs] says moreover that the last event shown is [ev]. *)

Definition runs {A} (m : M A) (reqs : list request) : Prop :=
  forall s, exists a shown,
    m s = (Ok a, mkState (page s ++ shown) (sent s ++ reqs)).

Definition runs_ending {A} (m : M A) (ev : ui_event) (reqs : list request)
  : Prop :=
  forall s, exists a front,
    m s = (Ok a, mkState (page s ++ front ++ [ev]) (sent s ++ reqs)).

Lemma runs_ret {A} (a : A) : runs (ret a) [].
Proof.
  intros s. exists a, []. unfold ret. rewrite !app_nil_r.
  destruct s; reflexivity.
Qed.

Lemma runs_lift {A} (r : result A) (a : A) : r = Ok a -> runs (lift r) [].
Proof. intros ->. apply runs_ret. Qed.

Lemma runs_ending_show (ev : ui_event) : runs_ending (show ev) ev [].
Proof.
  intros s. exists tt, []. unfold show. rewrite app_nil_r. reflexivity.
Qed.

Lemma runs_ending_runs {A} (m : M A) (ev : ui_event) (reqs : list request) :
  runs_ending m ev reqs -> runs m reqs.
Proof.
  intros H s. destruct (H s) as (a & front & Hm).
  exists a, (front ++ [ev]). exact Hm.
Qed.

Lemma runs_show (ev : ui_event) : runs (show ev) [].
Proof. apply (runs_ending_runs _ ev). apply runs_ending_show. Qed.

Lemma runs_bind {A B} (m : M A) (k : A -> M B) (r1 r2 : list request) :
  runs m r1 -> (forall a, runs (k a) r2) -> runs (bind m k) (r1 ++ r2).
Proof.
  intros Hm Hk s. destruct (Hm s) as (a & shown1 & Hrun).
  destruct (Hk a (mkState (page s ++ shown1) (sent s ++ r1)))
    as (b & shown2 & Hrun2).
  exists b, (shown1 ++ shown2).
  unfold bind. rewrite Hrun, Hrun2. cbn [page sent].
  rewrite <- !app_assoc. reflexivity.
Qed.

Lemma runs_bind_ending {A B} (m : M A) (k : A -> M B) (ev : ui_event)
  (r1 r2 : list request) :
  runs m r1 -> (forall a, runs_ending (k a) ev r2) ->
  runs_ending (bind m k) ev (r1 ++ r2).
Proof.
  intros Hm Hk s. destruct (Hm s) as (a & shown1 & Hrun).
  destruct (Hk a (mkState (page s ++ shown1) (sent s ++ r1)))
    as (b & front & Hrun2).
  exists b, (shown1 ++ front).
  unfold bind. rewrite Hrun, Hrun2. cbn [page sent].
  rewrite <- !app_assoc. reflexivity.
Qed.

Lemma runs_quiet_bind {A B} (m : M A) (k : A -> M B) (reqs : list request) :
  runs m [] -> (forall a, runs (k a) reqs) -> runs (bind m k) reqs.
Proof. intros Hm Hk. exact (runs_bind m k [] reqs Hm Hk). Qed.

Lemma runs_quiet_bind_ending {A B} (m : M A) (k : A -> M B) (ev : ui_event)
  (reqs : list request) :
  runs m [] -> (forall a, runs_ending (k a) ev reqs) ->
  runs_ending (bind m k) ev reqs.
Proof. intros Hm Hk. exact (runs_bind_ending m k ev [] reqs Hm Hk). Qed.


(** *** The page script as a whole *)

Section PageFlow.

Variables OPENWEATHERMAP_API_KEY OPENROUTESERVICE_API_KEY WAQI_API_TOKEN
  : pyval.
Variable upstream : request -> result pyval.
Variable pd_to_datetime : list pyval -> result (list pyval).

Local Notation pollution := (get_pollution_data OPENWEATHERMAP_API_KEY upstream).
Local Notation history := (get_historical_aqi WAQI_API_TOKEN upstream).
Local Notation page_script :=
  (render OPENWEATHERMAP_API_KEY OPENROUTESERVICE_API_KEY WAQI_API_TOKEN
     upstream pd_to_datetime).

(** The AQI feed is fetched first and nothing guards it: when its
    request raises, the script ends with that exception having sent only
    that request, so no weather request is made and nothing is shown.
    When the feed has been read and the weather request raises, the
    script ends there, the weather request being the last one sent. *)
Theorem render_stops_at_first_failure (city : string) (s : state) :
  (forall ex,
      upstream (feed_request WAQI_API_TOKEN city) = Raise ex ->
      page_script city s
      = (Raise ex,
         mkState (page s) (sent s ++ [feed_request WAQI_API_TOKEN city]))) /\
  (forall current df s1 ex,
      history city s = (Ok (current, df), s1) ->
      upstream (weather_request OPENWEATHERMAP_API_KEY city) = Raise ex ->
      page_script city s
      = (Raise ex,
         mkState (page s1)
           (sent s1 ++ [weather_request OPENWEATHERMAP_API_KEY city]))).
Proof.
  split.
  - intros ex Hup. unfold render. unfold bind at 1.
    rewrite (history_feed_raises _ _ city s ex Hup). reflexivity.
  - intros current df s1 ex Hhist Hup. unfold render.
    rewrite (bind_run _ _ _ _ _ Hhist). cbv beta iota.
    unfold bind at 1.
    rewrite (pollution_weather_raises _ _ city s1 ex Hup). reflexivity.
Qed.

End PageFlow.



(** *** The sidebar chart (lines 174-186) *)

Lemma slice_from_map {A B} (f : A -> B) (start : Z) (l : list A) :
  map f (slice_from start l) = slice_from start (map f l).
Proof.
  unfold slice_from. rewrite length_map. symmetry. apply skipn_map.
Qed.

Lemma set_timestamps_columns (column : list pyval) :
  forall df : dataframe,
    List.length column = List.length df ->
    map timestamp (set_timestamps column df) = column /\
    map aqi (set_timestamps column df) = map aqi df.
Proof.
  unfold set_timestamps.
  induction column as [|t column IH]; intros [|r df] Hlen; try discriminate.
  - split; reflexivity.
  - injection Hlen as Hlen. destruct (IH df Hlen) as (Ht & Ha).
    cbn [combine map fst snd timestamp aqi]. rewrite Ht, Ha. split; reflexivity.
Qed.

Section SidebarChart.

Variable pd_to_datetime : list pyval -> result (list pyval).

(** For a frame that is not empty and whose timestamps pandas converts
    (one value per row), the sidebar shows its heading and one chart: the
    last seven converted timestamps against the last seven AQI values, at
    most seven points, aligned row by row.  The frame it leaves for the
    rest of the page has the converted timestamps and the AQI values
    unchanged. *)
Theorem sidebar_trend_chart (df : dataframe) (column : list pyval) (s : state) :
  df <> [] ->
  pd_to_datetime (map timestamp df) = Ok column ->
  List.length column = List.length df ->
  exists df',
    sidebar_trend pd_to_datetime df s
    = (Ok df',
       mkState
         (page s ++
          [StMarkdown [Lit "### AQI Trend (Last 7 Days)"];
           Chart "sidebar" (slice_from (-7) column)
             (slice_from (-7) (map aqi df))])
         (sent s)) /\
    map timestamp df' = column /\
    map aqi df' = map aqi df /\
    List.length (slice_from (-7) column) = Nat.min 7 (List.length df) /\
    List.length (slice_from (-7) (map aqi df)) = Nat.min 7 (List.length df).
Proof.
  intros Hne Hcol Hlen.
  destruct (set_timestamps_columns column df Hlen) as (Ht & Ha).
  exists (set_timestamps column df).
  split; [|split; [exact Ht|split; [exact Ha|]]].
  - unfold sidebar_trend, to_datetime_column.
    destruct df as [|r df]; [contradiction Hne; reflexivity|].
    cbn [df_empty negb].
    unfold bind, show, lift, ret. rewrite Hcol. cbn [page sent].
    unfold last_7_days. rewrite !slice_from_map, Ht, Ha.
    rewrite <- app_assoc. reflexivity.
  - rewrite (slice_from_neg_skipn 7) by lia.
    rewrite (slice_from_neg_skipn 7) by lia.
    rewrite !length_skipn, length_map, Hlen. lia.
Qed.

End SidebarChart.

Lemma sidebar_trend_chart_witness :
  List.length (map timestamp sample_frame) = List.length sample_frame /\
  exists df',
    sidebar_trend (fun column => Ok column) sample_frame empty_state
    = (Ok df',
       mkState
         [StMarkdown [Lit "### AQI Trend (Last 7 Days)"];
          Chart "sidebar" (map VInt [10; 11; 12; 13; 14; 15; 16])
            (map VInt [110; 111; 112; 113; 114; 115; 116])]
         []).
Proof.
  split; [reflexivity|].
  destruct (sidebar_trend_chart (fun column => Ok column) sample_frame
              (map timestamp sample_frame) empty_state)
    as (df' & Hrun & _).
  - discriminate.
  - reflexivity.
  - reflexivity.
  - exists df'. rewrite Hrun. reflexivity.
Defined.

(** *** Loading the keys (lines 15-21) *)

Section KeyLoading.

Variable os_getenv : string -> option string.
Variable secrets_api_keys : result pyval.

Local Notation api_key := (get_api_key os_getenv secrets_api_keys).

(** The environment is not set for [key_name]: the variable is unset, or
    set to the empty string, which [or] treats alike. *)
Definition not_in_environment (key_name : string) : Prop :=
  os_getenv key_name = None \/ os_getenv key_name = Some "".

Lemma api_key_from_environment (key_name value : string) :
  os_getenv key_name = Some value -> value <> "" ->
  api_key key_name = Ok (VStr value).
Proof.
  intros Henv Hne. unfold get_api_key. rewrite Henv. cbn [Py.truthy].
  apply String.eqb_neq in Hne. rewrite Hne. reflexivity.
Qed.

Lemma api_key_from_secrets (key_name : string) :
  not_in_environment key_name ->
  api_key key_name
  = and_then secrets_api_keys (fun table =>
    Py.dict_get_default table key_name VNone).
Proof.
  intros [Henv|Henv]; unfold get_api_key; rewrite Henv; reflexivity.
Qed.

Lemma environment_cases (key_name : string) :
  not_in_environment key_name \/
  exists value, os_getenv key_name = Some value /\ value <> "".
Proof.
  unfold not_in_environment.
  destruct (os_getenv key_name) as [value|]; [|left; left; reflexivity].
  destruct (String.eqb value "") eqn:He.
  - apply String.eqb_eq in He. subst. left. right. reflexivity.
  - apply String.eqb_neq in He. right. exists value. split; [reflexivity|exact He].
Qed.

(** A key set to a non-empty value in the environment is returned as it
    is, and the secrets store is not consulted: whether it holds another
    value or cannot be read makes no difference.  A key that is unset or
    empty in the environment comes from the secrets table, [None] when
    the table lacks it, and the exception of an unreadable store comes
    out of [get_api_key].  So [None] is returned exactly when the
    environment has no value and the readable table has none either. *)
Theorem get_api_key_precedence (key_name : string) :
  (forall value,
      os_getenv key_name = Some value -> value <> "" ->
      api_key key_name = Ok (VStr value)) /\
  (not_in_environment key_name ->
   (forall table,
       secrets_api_keys = Ok (VDict table) ->
       api_key key_name
       = Ok (match Py.dict_get key_name table with
             | Some value => value
             | None => VNone
             end)) /\
   (forall ex, secrets_api_keys = Raise ex -> api_key key_name = Raise ex)) /\
  (api_key key_name = Ok VNone <->
   not_in_environment key_name /\
   exists table,
     secrets_api_keys = Ok (VDict table) /\
     (Py.dict_get key_name table = None \/
      Py.dict_get key_name table = Some VNone)).
Proof.
  split; [|split].
  - intros value. apply api_key_from_environment.
  - intros Henv. rewrite (api_key_from_secrets key_name Henv). split.
    + intros table ->. reflexivity.
    + intros ex ->. reflexivity.
  - split.
    + intros Hnone.
      destruct (environment_cases key_name) as [Henv|(value & Henv & Hne)].
      * split; [exact Henv|].
        rewrite (api_key_from_secrets key_name Henv) in Hnone.
        destruct secrets_api_keys as [table|ex]; [|discriminate].
        cbn [and_then] in Hnone.
        destruct table as [| | | | | |d]; try discriminate.
        exists d. split; [reflexivity|].
        cbn [Py.dict_get_default] in Hnone.
        destruct (Py.dict_get key_name d) as [v|]; [|left; reflexivity].
        injection Hnone as ->. right. reflexivity.
      * rewrite (api_key_from_environment key_name value Henv Hne) in Hnone.
        discriminate.
    + intros (Henv & table & Hsecrets & Hlookup).
      rewrite (api_key_from_secrets key_name Henv), Hsecrets.
      cbn [and_then Py.dict_get_default].
      destruct Hlookup as [-> | ->]; reflexivity.
Qed.

Variable upstream : request -> result pyval.
Variable pd_to_datetime : list pyval -> result (list pyval).

Local Notation script := (app os_getenv secrets_api_keys upstream pd_to_datetime).

(** With the three keys set to non-empty values in the environment the
    script is the page script run with those keys, whatever the secrets
    store holds or raises.  When the store cannot be read and one of the
    three keys is unset or empty in the environment, the script ends with
    the store's exception before any request is sent and before anything
    is shown. *)
Theorem app_keys (city : string) (s : state) :
  (forall weather_key route_key token,
      os_getenv "OPENWEATHERMAP_API_KEY" = Some weather_key -> weather_key <> "" ->
      os_getenv "OPENROUTESERVICE_API_KEY" = Some route_key -> route_key <> "" ->
      os_getenv "WAQI_API_TOKEN" = Some token -> token <> "" ->
      script city s
      = render (VStr weather_key) (VStr route_key) (VStr token)
          upstream pd_to_datetime city s) /\
  (forall ex,
      secrets_api_keys = Raise ex ->
      not_in_environment "OPENWEATHERMAP_API_KEY" \/
      not_in_environment "OPENROUTESERVICE_API_KEY" \/
      not_in_environment "WAQI_API_TOKEN" ->
      script city s = (Raise ex, s)).
Proof.
  split.
  - intros k1 k2 k3 H1 N1 H2 N2 H3 N3. unfold app.
    rewrite (bind_lift_ok _ _ _ _ (api_key_from_environment _ _ H1 N1)).
    rewrite (bind_lift_ok _ _ _ _ (api_key_from_environment _ _ H2 N2)).
    rewrite (bind_lift_ok _ _ _ _ (api_key_from_environment _ _ H3 N3)).
    reflexivity.
  - intros ex Hsecrets Hmissing.
    assert (Hkey : forall key_name,
               api_key key_name = Raise ex \/
               (exists value, api_key key_name = Ok (VStr value)) /\
               ~ not_in_environment key_name).
    { intros key_name.
      destruct (environment_cases key_name) as [Henv|(value & Henv & Hne)].
      - left. rewrite (api_key_from_secrets key_name Henv), Hsecrets. reflexivity.
      - right. split.
        + exists value. exact (api_key_from_environment key_name value Henv Hne).
        + intros [Hnone|Hempty]; rewrite Henv in *.
          * discriminate.
          * injection Hempty as ->. apply Hne. reflexivity. }
    unfold app.
    destruct (Hkey "OPENWEATHERMAP_API_KEY") as [H1|((v1 & H1) & N1)];
      [apply (bind_lift_raise _ _ _ _ H1)|].
    rewrite (bind_lift_ok _ _ _ _ H1).
    destruct (Hkey "OPENROUTESERVICE_API_KEY") as [H2|((v2 & H2) & N2)];
      [apply (bind_lift_raise _ _ _ _ H2)|].
    rewrite (bind_lift_ok _ _ _ _ H2).
    destruct (Hkey "WAQI_API_TOKEN") as [H3|((v3 & H3) & N3)];
      [apply (bind_lift_raise _ _ _ _ H3)|].
    destruct Hmissing as [H|[H|H]]; contradiction.
Qed.

End KeyLoading.

(** *** What [get_historical_aqi] sends and shows *)

Section HistoryEffects.

Variable WAQI_API_TOKEN : pyval.
Variable upstream : request -> result pyval.

Local Notation feed city := (feed_request WAQI_API_TOKEN city).
Local Notation history := (get_historical_aqi WAQI_API_TOKEN upstream).

(** Whatever the response (or exception), [get_historical_aqi] sends
    exactly one request, the feed request.  It shows its error message
    only for a response whose status is present and not "ok", and then
    returns [None] with the empty frame; in every other case, raising
    included, it shows nothing, and when it then returns, the status was
    "ok". *)
Theorem history_request_and_message (city : string) (s : state) :
  sent (snd (history city s)) = sent s ++ [feed city] /\
  ((exists response status,
       upstream (feed city) = Ok response /\
       field "status" response = Some status /\
       status <> VStr "ok" /\
       fst (history city s) = Ok (VNone, []) /\
       page (snd (history city s))
       = page s ++ [StError [Lit "Failed to fetch historical AQI data."]]) \/
   (page (snd (history city s)) = page s /\
    forall out,
      fst (history city s) = Ok out ->
      exists response,
        upstream (feed city) = Ok response /\
        field "status" response = Some (VStr "ok"))).
Proof.
  unfold get_historical_aqi.
  unfold bind, requests_get_json, lift, ret, st_error, show.
  destruct (upstream (feed city)) as [response|ex] eqn:Hup.
  2:{ split; [reflexivity|]. right. split; [reflexivity|]. discriminate. }
  destruct (Py.getitem response "status") as [status|ex] eqn:Hstatus.
  2:{ split; [reflexivity|]. right. split; [reflexivity|]. discriminate. }
  apply getitem_field in Hstatus.
  destruct (Py.eq_str status "ok") eqn:Hok.
  - assert (Hs : status = VStr "ok").
    { destruct status; try discriminate. simpl in Hok.
      apply String.eqb_eq in Hok. subst. reflexivity. }
    subst status.
    assert (Hright : exists response',
               Ok response = Ok response' /\
               field "status" response' = Some (VStr "ok")).
    { exists response. split; [reflexivity|exact Hstatus]. }
    repeat match goal with
           | |- context [match ?r with Ok _ => _ | Raise _ => _ end] =>
               destruct r
           end;
      (split; [reflexivity|]; right; split; [reflexivity|];
       intros out _; exact Hright).
  - split; [reflexivity|]. left. exists response, status.
    repeat split; try assumption.
    intros ->. discriminate.
Qed.

End HistoryEffects.

(** A world in which the city is unknown and the feed reports an error. *)
Definition sample_world_unknown_city : request -> result pyval :=
  dashboard (Ok (VDict [("cod", VStr "404"); ("message", VStr "city not found")]))
    (Raise (RequestException "unreachable"))
    (Ok (sample_feed "error" (VStr "Unknown station")))
    (Raise (RequestException "unreachable")).

(** *** The page script on data the widgets accept *)

(** [runs_to m post reqs]: [m] returns from every state a value that
    satisfies [post], having shown some events and sent [reqs]. *)
Definition runs_to {A} (m : M A) (post : A -> Prop) (reqs : list request)
  : Prop :=
  forall s, exists a shown,
    m s = (Ok a, mkState (page s ++ shown) (sent s ++ reqs)) /\ post a.

Lemma runs_to_runs {A} (m : M A) (post : A -> Prop) (reqs : list request) :
  runs_to m post reqs -> runs m reqs.
Proof.
  intros H s. destruct (H s) as (a & shown & Hm & _).
  exists a, shown. exact Hm.
Qed.








Section Sidebar.

Variable pd_to_datetime : list pyval -> result (list pyval).

Lemma runs_sidebar_statistics (current_aqi components : pyval) :
  (exists text, metric_value current_aqi = Ok text) ->
  (Py.truthy components = false \/ exists d, components = VDict d) ->
  runs (sidebar_statistics current_aqi components) [].
Proof.
  intros (text & Htext) Hc. unfold sidebar_statistics.
  apply runs_quiet_bind; [apply runs_show|]. intros _.
  apply runs_quiet_bind.
  { destruct (negb (Py.is_none current_aqi)); [|apply runs_ret].
    apply runs_quiet_bind; [exact (runs_lift _ _ Htext)|].
    intros value. apply runs_show. }
  intros _.
  destruct Hc as [Hfalse|(d & ->)].
  - rewrite Hfalse. apply runs_ret.
  - destruct (Py.truthy (VDict d)); [|apply runs_ret].
    apply runs_quiet_bind; [|intros pm25; apply runs_show].
    apply (runs_lift _ (match Py.dict_get "pm2_5" d with
                        | Some x => x
                        | None => VStr "N/A"
                        end)).
    reflexivity.
Qed.

(** The frame the sidebar hands on: its timestamps are the converted
    column. *)
Lemma runs_to_sidebar_trend (df : dataframe) :
  (df = [] \/
   exists column,
     pd_to_datetime (map timestamp df) = Ok column /\
     List.length column = List.length df) ->
  runs_to (sidebar_trend pd_to_datetime df)
    (fun df' =>
       (df = [] /\ df' = []) \/
       (df <> [] /\ pd_to_datetime (map timestamp df) = Ok (map timestamp df')))
    [].
Proof.
  intros Hdf s. unfold sidebar_trend.
  destruct df as [|r df].
  - exists [], []. cbn [df_empty negb]. unfold ret. rewrite !app_nil_r.
    split; [destruct s; reflexivity|]. left. split; reflexivity.
  - destruct Hdf as [Hnil|(column & Hcol & Hlen)]; [discriminate|].
    destruct (set_timestamps_columns column (r :: df) Hlen) as (Ht & _).
    cbn [df_empty negb].
    unfold to_datetime_column, bind, show, lift, ret. rewrite Hcol.
    cbn [page sent].
    exists (set_timestamps column (r :: df)),
      [StMarkdown [Lit "### AQI Trend (Last 7 Days)"];
       Chart "sidebar"
         (map timestamp (last_7_days (set_timestamps column (r :: df))))
         (map aqi (last_7_days (set_timestamps column (r :: df))))].
    split.
    + rewrite <- app_assoc, app_nil_r. reflexivity.
    + right. rewrite Ht. split; [discriminate|reflexivity].
Qed.

End Sidebar.

Section PageReturns.

Variables OPENWEATHERMAP_API_KEY OPENROUTESERVICE_API_KEY WAQI_API_TOKEN
  : pyval.
Variable upstream : request -> result pyval.
Variable pd_to_datetime : list pyval -> result (list pyval).

Local Notation pollution := (get_pollution_data OPENWEATHERMAP_API_KEY upstream).
Local Notation traffic := (get_traffic_data OPENROUTESERVICE_API_KEY upstream).
Local Notation history := (get_historical_aqi WAQI_API_TOKEN upstream).
Local Notation page_script :=
  (render OPENWEATHERMAP_API_KEY OPENROUTESERVICE_API_KEY WAQI_API_TOKEN
     upstream pd_to_datetime).
Local Notation route_request lat lon :=
  (directions_request OPENROUTESERVICE_API_KEY
     [Fmt (VFloat lon); Lit ","; Fmt (VFloat lat)]
     [Fmt (VFloat (lon + 0.01)%float); Lit ",";
      Fmt (VFloat (lat + 0.01)%float)]).

(** When [get_pollution_data] returned no latitude or no longitude, and
    the sidebar can be drawn (the current AQI is [None], a number or a
    string, as [st.metric] accepts; the pollutants are falsy or a mapping;
    the frame is empty or pandas converts its timestamps, one value per
    row), the script returns normally, also when the current AQI is
    [None]: it makes no further request, so the routing service is never
    called, and the last thing it shows is the "Unable to fetch data"
    error. *)
Theorem render_without_coordinates (city : string) (s s1 s2 : state)
  (current components lat lon : pyval) (df : dataframe) :
  history city s = (Ok (current, df), s1) ->
  pollution city s1 = (Ok (components, lat, lon), s2) ->
  lat = VNone \/ lon = VNone ->
  (exists text, metric_value current = Ok text) ->
  Py.truthy components = false \/ (exists d, components = VDict d) ->
  df = [] \/
  (exists column,
      pd_to_datetime (map timestamp df) = Ok column /\
      List.length column = List.length df) ->
  exists front,
    page_script city s
    = (Ok tt,
       mkState
         (page s2 ++ front ++
          [StError
             [Lit "Unable to fetch data for the selected city. Please try again later."]])
         (sent s2)).
Proof.
  intros Hhist Hpoll Hcoord Hmetric Hcomp Hdf. unfold render.
  rewrite (bind_run _ _ _ _ _ Hhist). cbv beta iota.
  rewrite (bind_run _ _ _ _ _ Hpoll). cbv beta iota.
  assert (Hrun : runs_ending
            (sidebar_statistics current components ;;
             historical_aqi_df <- sidebar_trend pd_to_datetime df ;;
             show (StMarkdown [Lit "### AQI Levels"]) ;;
             show (StMarkdown [Lit "Smart City Traffic and Pollution Monitoring"]) ;;
             if negb (Py.is_none lat) && negb (Py.is_none lon) then
               main_content OPENROUTESERVICE_API_KEY upstream pd_to_datetime
                 city current components lat lon historical_aqi_df
             else
               st_error
                 [Lit "Unable to fetch data for the selected city. Please try again later."])
            (StError
               [Lit "Unable to fetch data for the selected city. Please try again later."])
            []).
  { apply runs_quiet_bind_ending;
      [exact (runs_sidebar_statistics _ _ Hmetric Hcomp)|].
    intros _.
    apply runs_quiet_bind_ending.
    { exact (runs_to_runs _ _ _ (runs_to_sidebar_trend pd_to_datetime df Hdf)). }
    intros df'.
    apply runs_quiet_bind_ending; [apply runs_show|]. intros _.
    apply runs_quiet_bind_ending; [apply runs_show|]. intros _.
    assert (Hno : negb (Py.is_none lat) && negb (Py.is_none lon) = false).
    { destruct Hcoord as [->| ->]; [reflexivity|].
      destruct (negb (Py.is_none lat)); reflexivity. }
    rewrite Hno. apply runs_ending_show. }
  destruct (Hrun s2) as ([] & front & Hs2).
  exists front. rewrite Hs2. rewrite app_nil_r. reflexivity.
Qed.




End PageReturns.

Lemma render_without_coordinates_witness :
  fst (get_pollution_data (VStr "key") sample_world_unknown_city "Delhi"
         (snd (get_historical_aqi (VStr "token") sample_world_unknown_city
                 "Delhi" empty_state)))
  = Ok (VNone, VNone, VNone) /\
  metric_value VNone = Ok [Lit "—"] /\
  fst (render (VStr "key") (VStr "key") (VStr "token") sample_world_unknown_city
         (fun column => Ok column) "Delhi" empty_state)
  = Ok tt /\
  sent (snd (render (VStr "key") (VStr "key") (VStr "token")
               sample_world_unknown_city (fun column => Ok column)
               "Delhi" empty_state))
  = [feed_request (VStr "token") "Delhi"; weather_request (VStr "key") "Delhi"].
Proof.
  split; [reflexivity|]. split; [reflexivity|].
  edestruct (render_without_coordinates (VStr "key") (VStr "key") (VStr "token")
               sample_world_unknown_city (fun column => Ok column)
               "Delhi" empty_state) as (front & Hrun).
  - reflexivity.
  - reflexivity.
  - left. reflexivity.
  - eexists. reflexivity.
  - left. reflexivity.
  - left. reflexivity.
  - rewrite Hrun. split; reflexivity.
Defined.


(** The two checks the widgets make, on the page script: a current AQI
    that is a list stops the script at [st.sidebar.metric] (line 167),
    and a NaN latitude stops it at [folium.Map] (line 244), after the
    routing request. *)
Lemma render_rejects_list_aqi :
  fst (render (VStr "key") (VStr "key") (VStr "token")
         (dashboard (Ok (sample_weather (VFloat 28.6) (VFloat 77.2)))
            (Ok (sample_pollution sample_components))
            (Ok (sample_feed "ok"
                   (VDict [("aqi", VList [VInt 152]);
                           ("forecast",
                            VDict [("daily", VDict [("pm25", VList [])])])])))
            (Ok (sample_route (VFloat 120) (VFloat 1000))))
         (fun column => Ok column) "Delhi" empty_state)
  = Raise TypeError.
Proof. vm_compute. reflexivity. Qed.

Lemma render_rejects_nan_latitude :
  fst (render (VStr "key") (VStr "key") (VStr "token")
         (dashboard (Ok (sample_weather (VFloat nan) (VFloat 77.2)))
            (Ok (sample_pollution sample_components))
            (Ok (sample_feed "ok" sample_forecast))
            (Ok (sample_route (VFloat 120) (VFloat 1000))))
         (fun column => Ok column) "Delhi" empty_state)
  = Raise ValueError.
Proof. vm_compute. reflexivity. Qed.
